(** * UbyAgro back end: the regulatory agent (agents/ale.py) and the
      mock HTTP API (api.py)

    A shallow embedding of the two modules that carry behaviour:

    - [Ale]: the web-extraction tool [buscar_portal_mapa] and the chat
      entry point [run_ale_chat] of the regulatory agent;
    - [Api]: the token check [verify_token] and the endpoints
      [get_project_status] and [get_project_analysis].

    Python exceptions are an explicit [Raise] outcome, external
    collaborators (Playwright, the extractor, the language model) are
    oracles whose calls are logged, and Python [list] objects live in a
    store addressed by references so that aliasing is visible. *)

From Stdlib Require Import ZArith.
From stdpp Require Import gmap strings list fin_maps.

Local Open Scope Z_scope.
Set Warnings "-register-all".

(** ** Exceptions and outcomes *)

Inductive Exception : Type :=
| KeyError (key : string)
| HTTPException (status_code : Z) (detail : string)
| ExternalError (what : string).

Inductive Result (A : Type) : Type :=
| Ok (a : A)
| Raise (e : Exception).

Arguments Ok {A} a.
Arguments Raise {A} e.

Definition returns {A} (r : Result A) : Prop :=
  match r with Ok _ => True | Raise _ => False end.

(** ** Computations over a world [S] that may raise

    A raise keeps the world as it was when the exception left the
    failing statement: effects performed before it are not undone. *)

Definition M (S A : Type) : Type := S -> S * Result A.

Definition ret {S A} (a : A) : M S A := fun s => (s, Ok a).

Definition bind {S A B} (c : M S A) (k : A -> M S B) : M S B :=
  fun s =>
    match c s with
    | (s1, Ok a) => k a s1
    | (s1, Raise e) => (s1, Raise e)
    end.

Definition lift {S A} (r : Result A) : M S A := fun s => (s, r).

Notation "'let*' x ':=' c 'in' k" := (bind c (fun x => k))
  (at level 10, x name, c at level 100, k at level 200).

(** [async with enter as x: body] : when [enter] succeeds the exit
    handler runs on every way out of [body], and an exception of
    [body] is re-raised after it (the exit handler of the Playwright
    context returns nothing, so it never swallows the exception). *)
Definition async_with {S A B} (enter : M S A) (exit_ : S -> S)
    (body : A -> M S B) : M S B :=
  fun s =>
    match enter s with
    | (s1, Raise e) => (s1, Raise e)
    | (s1, Ok x) =>
        match body x s1 with
        | (s2, r) => (exit_ s2, r)
        end
    end.

(** ** Python dictionaries with string keys *)

Definition getitem (d : gmap string string) (key : string) : Result string :=
  match d !! key with
  | Some v => Ok v
  | None => Raise (KeyError key)
  end.

Definition dict_get (d : gmap string string) (key default : string) : string :=
  match d !! key with
  | Some v => v
  | None => default
  end.

Definition newline : string := String (Ascii.ascii_of_nat 10) "".

(** * agents/ale.py *)

Module Ale.

(** ** The web-extraction tool *)

Inductive Browser : Type := BrowserHandle (n : nat).

Record ExtractionPreferences : Type := {
  only_main_content : bool;
  wait_for_ms : Z;
  block_ads : bool;
  remove_base_64_images : bool;
  timeout_ms : Z
}.

Record MapaExtractedContent : Type := {
  informacao_relevante : string;
  numero_normativa : option string;
  data_publicacao : option string
}.

Record ExtractionResult : Type := { output_parsed : MapaExtractedContent }.

(** The keyword arguments of [extractor.extract_async]. *)
Record ExtractRequest : Type := {
  browser : Browser;
  urls : list string;
  extraction_preferences : ExtractionPreferences;
  prompt : string
}.

(** What Playwright and the extractor answer; every call may raise. *)
Record Externals : Type := {
  playwright_start : Result unit;
  chromium_launch : bool -> Result Browser;
  extract_async : ExtractRequest -> Result ExtractionResult;
  browser_close : Browser -> Result unit
}.

(** The calls the tool makes on its collaborators, in program order. *)
Inductive Event : Type :=
| PlaywrightStart
| ChromiumLaunch (headless : bool)
| ExtractAsync (req : ExtractRequest)
| BrowserClose (b : Browser)
| PlaywrightStop.

(** A call is logged when it is made, whether or not it raises. *)
Definition call {A} (ev : Event) (outcome : Result A) : M (list Event) A :=
  fun tr => (tr ++ [ev], outcome).

Definition mapa_urls : list string :=
  ["https://www.gov.br/agricultura/pt-br/assuntos/insumos-agropecuarios/insumos-agricolas/fertilizantes/legislacao"].

Definition preferences : ExtractionPreferences :=
  {| only_main_content := true;
     wait_for_ms := 2000;
     block_ads := true;
     remove_base_64_images := true;
     timeout_ms := 15000 |}.

Definition extraction_prompt (termo : string) : string :=
  "Extrair informações sobre: " +:+ termo
    +:+ ". Focar em requisitos, prazos e custos.".

(** The arguments of the one [extract_async] call. *)
Definition extract_request (b : Browser) (termo : string) : ExtractRequest :=
  {| browser := b;
     urls := mapa_urls;
     extraction_preferences := preferences;
     prompt := extraction_prompt termo |}.

Definition buscar_portal_mapa (ext : Externals) (termo : string)
    : M (list Event) string :=
  async_with (call PlaywrightStart (playwright_start ext))
             (fun tr => tr ++ [PlaywrightStop])
    (fun _ =>
       let* b := call (ChromiumLaunch true) (chromium_launch ext true) in
       let req := extract_request b termo in
       let* result := call (ExtractAsync req) (extract_async ext req) in
       let* _ := call (BrowserClose b) (browser_close ext b) in
       ret (informacao_relevante (output_parsed result))).

(** ** Messages and the chat entry point *)

Record TextPart : Type := { text : string }.

Inductive Message : Type :=
| UserMessage (parts : list TextPart)
| AssistantMessage (parts : list TextPart).

(** The generation an agent run returns; chat mode reads [content]. *)
Record AgentOutput : Type := { content : list TextPart }.

(** The agent built by [create_ale_agent], seen through [run_async]:
    the model's answer to a message sequence, or an exception. *)
Definition Agent : Type := list Message -> Result AgentOutput.

(** Python [list] objects are referenced, not copied: the store maps
    each live reference to the current items of its list, and [sent]
    records the message sequences handed to the agent. *)
Record ChatWorld : Type := {
  lists : gmap positive (list Message);
  sent : list (list Message)
}.

Definition items (w : ChatWorld) (r : positive) : list Message :=
  default [] (lists w !! r).

Definition set_items (r : positive) (l : list Message) (w : ChatWorld)
    : ChatWorld :=
  {| lists := <[r := l]> (lists w); sent := sent w |}.

(** [[x]] : a list display allocates a new list object. *)
Definition new_list (l : list Message) : M ChatWorld positive :=
  fun w => let r := fresh (dom (lists w)) in (set_items r l w, Ok r).

(** [dst.extend(src)] reads [src] and grows [dst] in place. *)
Definition list_extend (dst src : positive) : M ChatWorld unit :=
  fun w => (set_items dst (items w dst ++ items w src) w, Ok tt).

(** [dst.append(x)] grows [dst] in place. *)
Definition list_append (dst : positive) (x : Message) : M ChatWorld unit :=
  fun w => (set_items dst (items w dst ++ [x]) w, Ok tt).

(** [await agent.run_async(messages)]. *)
Definition run_async (agent : Agent) (messages : positive)
    : M ChatWorld AgentOutput :=
  fun w =>
    ({| lists := lists w; sent := sent w ++ [items w messages] |},
     agent (items w messages)).

Definition indent : string := "    ".

(** The f-string of [run_ale_chat]; its fields are evaluated left to
    right, so the first missing key is the one reported. *)
Definition context_message (project_context : gmap string string)
    : Result string :=
  match getitem project_context "name" with
  | Raise e => Raise e
  | Ok name =>
    match getitem project_context "category" with
    | Raise e => Raise e
    | Ok category =>
      match getitem project_context "target_crop" with
      | Raise e => Raise e
      | Ok target_crop =>
        let status :=
          dict_get project_context "status_regulatorio" "Em análise" in
        Ok (newline +:+ indent +:+ "[CONTEXTO DO PROJETO]"
            +:+ newline +:+ indent +:+ "Nome: " +:+ name
            +:+ newline +:+ indent +:+ "Categoria: " +:+ category
            +:+ newline +:+ indent +:+ "Cultura: " +:+ target_crop
            +:+ newline +:+ indent +:+ "Status Regulatório Atual: " +:+ status
            +:+ newline +:+ indent)
      end
    end
  end.

Definition fallback_message : string :=
  "Desculpe, não consegui gerar resposta.".

(** [output.content[0].text if output.content else "Desculpe, ..."] *)
Definition reply_text (output : AgentOutput) : string :=
  match content output with
  | part :: _ => text part
  | [] => fallback_message
  end.

Definition user_turn (s : string) : Message :=
  UserMessage [{| text := s |}].

Definition run_ale_chat (agent : Agent) (user_message : string)
    (project_context : gmap string string) (chat_history : positive)
    : M ChatWorld string :=
  let* context := lift (context_message project_context) in
  let* messages := new_list [user_turn context] in
  let* _ := list_extend messages chat_history in
  let* _ := list_append messages (user_turn user_message) in
  let* output := run_async agent messages in
  ret (reply_text output).

(** ** Structured analysis *)

Record AleResponse : Type := {
  viabilidade_regulatoria : string;
  prazo_estimado_meses : string;
  custo_estimado : string;
  caminho_registro : string;
  alertas : list string;
  resumo : string;
  fonte_normativa : option string
}.

(** The same agent run, read through [output.parsed]. *)
Record AnalysisOutput : Type := { parsed : AleResponse }.

Definition AnalysisAgent : Type := list Message -> Result AnalysisOutput.

Definition run_async_parsed (agent : AnalysisAgent) (messages : positive)
    : M ChatWorld AnalysisOutput :=
  fun w =>
    ({| lists := lists w; sent := sent w ++ [items w messages] |},
     agent (items w messages)).

Definition default_pdf_content : string :=
  "Bioestimulante à base de algas marinhas".

(** The f-string of [run_ale_analysis]; the lines left blank in the
    source still carry the indentation of the literal. *)
Definition user_prompt (project_context : gmap string string)
    : Result string :=
  match getitem project_context "name" with
  | Raise e => Raise e
  | Ok name =>
    match getitem project_context "category" with
    | Raise e => Raise e
    | Ok category =>
      match getitem project_context "target_crop" with
      | Raise e => Raise e
      | Ok target_crop =>
        let pdf_content :=
          dict_get project_context "pdf_content" default_pdf_content in
        Ok (newline +:+ indent
            +:+ "Analise a viabilidade regulatória do seguinte projeto:"
            +:+ newline +:+ indent
            +:+ newline +:+ indent +:+ "Nome: " +:+ name
            +:+ newline +:+ indent +:+ "Categoria: " +:+ category
            +:+ newline +:+ indent +:+ "Cultura-alvo: " +:+ target_crop
            +:+ newline +:+ indent
            +:+ newline +:+ indent +:+ "Conteúdo técnico:"
            +:+ newline +:+ indent +:+ pdf_content
            +:+ newline +:+ indent
            +:+ newline +:+ indent +:+ "Forneça:"
            +:+ newline +:+ indent
            +:+ "1. Status de viabilidade regulatória (verde/amarelo/vermelho)"
            +:+ newline +:+ indent
            +:+ "2. Prazo estimado para registro completo"
            +:+ newline +:+ indent
            +:+ "3. Custo total estimado (taxas + estudos)"
            +:+ newline +:+ indent
            +:+ "4. Caminho de registro passo a passo"
            +:+ newline +:+ indent
            +:+ "5. Alertas ou pontos de atenção"
            +:+ newline +:+ indent
            +:+ "6. Base normativa (INs, Portarias aplicáveis)"
            +:+ newline +:+ indent)
      end
    end
  end.

Definition run_ale_analysis (agent : AnalysisAgent)
    (project_context : gmap string string) : M ChatWorld AleResponse :=
  let* prompt := lift (user_prompt project_context) in
  let* message_history := new_list [user_turn prompt] in
  let* output := run_async_parsed agent message_history in
  ret (parsed output).

(** The two entry points from their first statement on:
    [agent = create_ale_agent()] builds the agent (provider, tools,
    schema, a new conversation store) and may raise; the body above
    follows with the agent it returned. *)
Definition run_ale_chat_call (create_ale_agent : Result Agent)
    (user_message : string) (project_context : gmap string string)
    (chat_history : positive) : M ChatWorld string :=
  let* agent := lift create_ale_agent in
  run_ale_chat agent user_message project_context chat_history.

Definition run_ale_analysis_call (create_ale_agent : Result AnalysisAgent)
    (project_context : gmap string string) : M ChatWorld AleResponse :=
  let* agent := lift create_ale_agent in
  run_ale_analysis agent project_context.

End Ale.

(** * api.py *)

Module Api.

(** ** Schemas *)

(** [Literal["completed", "processing", "pending", "failed"]] *)
Inductive AgentState : Type := completed | processing | pending | failed.

Record AgentProgress : Type := {
  status : AgentState;
  progress_percent : Z;
  estimated_time_remaining_seconds : Z
}.

Record ProjectStatus : Type := {
  status_project_id : string;
  project_status : AgentState;
  progress : gmap string AgentProgress;
  overall_progress_percent : Z
}.

(** [Literal["verde", "amarelo", "vermelho"]] *)
Inductive Viability : Type := verde | amarelo | vermelho.

(** [Literal["VIAVEL", "VIAVEL_COM_AJUSTES", "NAO_VIAVEL"]] *)
Inductive Recommendation : Type := VIAVEL | VIAVEL_COM_AJUSTES | NAO_VIAVEL.

(** Free-form [dict] payloads. *)
Inductive Value : Type :=
| VStr (s : string)
| VInt (n : Z)
| VList (l : list Value)
| VDict (d : list (string * Value)).

Record AgentAnalysisDetails : Type := {
  agent_name : string;
  agent_role : string;
  agent_status : Viability;
  score : Z;
  summary : string;
  details : Value
}.

Record ProjectAnalysis : Type := {
  project_id : string;
  project_name : string;
  overall_score : Z;
  recommendation : Recommendation;
  recommendation_text : string;
  analyzed_at : Z;
  agents : gmap string AgentAnalysisDetails;
  financial_projection : Value;
  action_items : list string;
  alerts : list Value
}.

(** ** Mock data *)

Definition ale_analysis : AgentAnalysisDetails :=
  {| agent_name := "Alê";
     agent_role := "Regulatória";
     agent_status := verde;
     score := 90;
     summary := "Via livre regulatória. Registro estimado em 18-24 meses via MAPA.";
     details := VDict
       [("prazo_meses", VStr "18-24");
        ("custo_estimado", VStr "R$ 140K-180K");
        ("caminho_registro", VStr "SIPEAGRO → Dossiê → Análise MAPA → Publicação");
        ("alertas", VList []);
        ("pontos_atencao",
         VList [VStr "80% dos bioestimulantes têm 1-2 complementações"])] |}.

Definition merc_analysis : AgentAnalysisDetails :=
  {| agent_name := "Merc";
     agent_role := "Mercado";
     agent_status := verde;
     score := 85;
     summary := "Mercado de R$ 850M/ano crescendo +15% a.a.";
     details := VDict
       [("tamanho_mercado", VStr "R$ 850M/ano");
        ("crescimento_anual", VStr "+15.3%");
        ("potencial_vendas_ano1", VStr "R$ 17M-26M");
        ("regiao_foco", VStr "Rio Grande do Sul")] |}.

Definition pat_analysis : AgentAnalysisDetails :=
  {| agent_name := "Pat";
     agent_role := "Patentes";
     agent_status := amarelo;
     score := 75;
     summary := "Identificadas 2 patentes com potencial conflito.";
     details := VDict
       [("patentes_relevantes", VInt 12);
        ("patentes_conflito", VInt 2);
        ("recomendacao", VStr "Ajustar proporção de polissacarídeos")] |}.

Definition dex_analysis : AgentAnalysisDetails :=
  {| agent_name := "Dex";
     agent_role := "Dados e Ciência";
     agent_status := verde;
     score := 88;
     summary := "73 artigos comprovam eficácia. Dados internos validam.";
     details := VDict
       [("artigos_encontrados", VInt 73);
        ("nivel_evidencia", VStr "Forte");
        ("dados_internos",
         VDict [("performance_observada", VStr "+18% produtividade");
                ("numero_fazendas", VInt 47)])] |}.

(** The dictionary literal of the module; [now] is the clock reading
    taken when the module is loaded. *)
Definition MOCK_ANALYSIS_DATA (now : Z) : ProjectAnalysis :=
  {| project_id := "proj-abc123";
     project_name := "Bioestimulante Algas Soja";
     overall_score := 82;
     recommendation := VIAVEL_COM_AJUSTES;
     recommendation_text :=
       "Projeto viável com ajustes menores na formulação para evitar conflito de patente";
     analyzed_at := now;
     agents := list_to_map
       [("ale", ale_analysis); ("merc", merc_analysis);
        ("pat", pat_analysis); ("dex", dex_analysis)];
     financial_projection := VDict
       [("investimento_pd", VStr "R$ 1.2M - R$ 1.8M");
        ("roi_3anos_percent", VStr "320-480%")];
     action_items :=
       ["Contatar Embrapa Soja para parceria";
        "Iniciar testes de formulação alternativa"];
     alerts := [] |}.

(** The module's global state: the one dictionary object bound to
    [MOCK_ANALYSIS_DATA]. *)
Record Globals : Type := { mock_analysis_data : ProjectAnalysis }.

Definition module_loaded (now : Z) : Globals :=
  {| mock_analysis_data := MOCK_ANALYSIS_DATA now |}.

(** ** Authentication *)

Record User : Type := { user_id : string; role : string }.

(** What a request carries that an authentication check could read. *)
Record Request : Type := { authorization : option string }.

(** [Depends(lambda: "mock_token")]: the dependency takes no
    parameter, so nothing of the request reaches it. *)
Definition token_dependency (req : Request) : string := "mock_token".

(** [not token] on a [str]. *)
Definition falsy (s : string) : bool :=
  match s with
  | EmptyString => true
  | String _ _ => false
  end.

Definition verify_token (token : string) : Result User :=
  if falsy token
  then Raise (HTTPException 401 "Token não fornecido")
  else Ok {| user_id := "user-1"; role := "colaborador" |}.

(** [current_user: dict = Depends(verify_token)] *)
Definition current_user (req : Request) : Result User :=
  verify_token (token_dependency req).

(** ** Endpoints *)

Definition get_project_status (id : string) (user : User)
    : M Globals ProjectStatus :=
  ret {| status_project_id := id;
         project_status := processing;
         progress := list_to_map
           [("ale", {| status := completed;
                       progress_percent := 100;
                       estimated_time_remaining_seconds := 0 |});
            ("merc", {| status := processing;
                        progress_percent := 75;
                        estimated_time_remaining_seconds := 15 |});
            ("pat", {| status := processing;
                       progress_percent := 50;
                       estimated_time_remaining_seconds := 30 |});
            ("dex", {| status := pending;
                       progress_percent := 0;
                       estimated_time_remaining_seconds := 60 |})];
         overall_progress_percent := 56 |}.

(** [dict.copy()] followed by an item assignment on the copy: the
    global dictionary keeps its own [project_id]. *)
Definition with_project_id (id : string) (a : ProjectAnalysis)
    : ProjectAnalysis :=
  {| project_id := id;
     project_name := project_name a;
     overall_score := overall_score a;
     recommendation := recommendation a;
     recommendation_text := recommendation_text a;
     analyzed_at := analyzed_at a;
     agents := agents a;
     financial_projection := financial_projection a;
     action_items := action_items a;
     alerts := alerts a |}.

Definition get_project_analysis (id : string) (user : User)
    : M Globals ProjectAnalysis :=
  fun g => (g, Ok (with_project_id id (mock_analysis_data g))).

(** A route resolves its dependencies, then runs the handler. *)
Definition route {A} (handler : User -> M Globals A) (req : Request)
    : M Globals A :=
  let* user := lift (current_user req) in
  handler user.

Definition GET_project_status (req : Request) (id : string)
    : M Globals ProjectStatus :=
  route (get_project_status id) req.

Definition GET_project_analysis (req : Request) (id : string)
    : M Globals ProjectAnalysis :=
  route (get_project_analysis id) req.

(** ** Endpoints that draw identifiers, read the clock or write files

    The server's surroundings: the files and directories under the
    working directory, the hexadecimal forms of the UUIDs still to be
    drawn and the readings the clock will give. Of the operating
    system's failures the model has the two that the files and
    directories themselves decide; permissions and full disks are
    outside it. *)

Record Server : Type := {
  files : gmap string (list Byte.byte);
  directories : gset string;
  uuid_hex : nat -> string;
  drawn : nat;
  clock_at : nat -> Z;
  clock_reads : nat
}.

(** [uuid.uuid4().hex] *)
Definition uuid4_hex : M Server string :=
  fun s =>
    ({| files := files s; directories := directories s;
        uuid_hex := uuid_hex s; drawn := S (drawn s);
        clock_at := clock_at s; clock_reads := clock_reads s |},
     Ok (uuid_hex s (drawn s))).

(** [datetime.now()] *)
Definition datetime_now : M Server Z :=
  fun s =>
    ({| files := files s; directories := directories s;
        uuid_hex := uuid_hex s; drawn := drawn s;
        clock_at := clock_at s; clock_reads := S (clock_reads s) |},
     Ok (clock_at s (clock_reads s))).

(** [os.makedirs(path, exist_ok=True)]: an existing directory is
    accepted, an existing regular file is not. *)
Definition makedirs (path : string) : M Server unit :=
  fun s =>
    match files s !! path with
    | Some _ => (s, Raise (ExternalError "FileExistsError"))
    | None =>
        ({| files := files s; directories := {[ path ]} ∪ directories s;
            uuid_hex := uuid_hex s; drawn := drawn s;
            clock_at := clock_at s; clock_reads := clock_reads s |},
         Ok tt)
    end.

(** [with open(path, "wb") as f: f.write(data)]: a directory cannot
    be opened for writing; a file is created or replaced. *)
Definition write_binary (path : string) (data : list Byte.byte)
    : M Server unit :=
  fun s =>
    if decide (path ∈ directories s)
    then (s, Raise (ExternalError "IsADirectoryError"))
    else
      ({| files := <[path := data]> (files s);
          directories := directories s;
          uuid_hex := uuid_hex s; drawn := drawn s;
          clock_at := clock_at s; clock_reads := clock_reads s |},
       Ok tt).

(** The slice [s[:n]]. *)
Fixpoint str_take (n : nat) (s : string) : string :=
  match n, s with
  | S n', String c s' => String c (str_take n' s')
  | _, _ => ""
  end.

Record LoginRequest : Type := { email : string; password : string }.

Record LoginUser : Type := {
  login_user_id : string;
  login_user_name : string;
  login_user_email : string;
  login_user_role : string
}.

Record LoginResponse : Type := { token : string; user : LoginUser }.

Definition login (request : LoginRequest) : LoginResponse :=
  {| token := "mock_token_abc123";
     user := {| login_user_id := "user-1";
                login_user_name := "João Silva";
                login_user_email := email request;
                login_user_role := "colaborador" |} |}.

Record CreatedProject : Type := {
  created_project_id : string;
  created_name : string;
  created_category : string;
  created_target_crop : string;
  created_status : AgentState;
  created_at : Z;
  created_by : string
}.

Definition upload_path (id : string) : string :=
  "uploads/" +:+ id +:+ ".pdf".

Definition create_project (name category target_crop : string)
    (description : option string) (file : list Byte.byte)
    (current : User) : M Server CreatedProject :=
  let* hex := uuid4_hex in
  let id := "proj-" +:+ str_take 8 hex in
  let* _ := makedirs "uploads" in
  let* _ := write_binary (upload_path id) file in
  let* now := datetime_now in
  ret {| created_project_id := id;
         created_name := name;
         created_category := category;
         created_target_crop := target_crop;
         created_status := processing;
         created_at := now;
         created_by := user_id current |}.

Definition agent_names : gmap string string :=
  list_to_map
    [("ale", "Alê"); ("merc", "Merc"); ("pat", "Pat"); ("dex", "Dex")].

Record ChatReply : Type := {
  chat_id : string;
  reply_agent_id : string;
  reply_agent_name : string;
  message_id : string;
  response_text : string;
  structured_data : Value;
  timestamp : Z
}.

Definition chat_with_agent (id agent_id message : string) (current : User)
    : M Server ChatReply :=
  let* hex1 := uuid4_hex in
  let chat := "chat-" +:+ str_take 8 hex1 in
  let* hex2 := uuid4_hex in
  let msg := "msg-" +:+ str_take 6 hex2 in
  let* name := lift (getitem agent_names agent_id) in
  let mock_response :=
    "[Mock] Resposta do agente " +:+ name +:+ " para: " +:+ message in
  let* now := datetime_now in
  ret {| chat_id := chat;
         reply_agent_id := agent_id;
         reply_agent_name := name;
         message_id := msg;
         response_text := mock_response;
         structured_data := VDict [];
         timestamp := now |}.

(** [Literal["all", "processing", "completed", "failed"]] *)
Inductive StatusFilter : Type :=
| filter_all
| filter_processing
| filter_completed
| filter_failed.

Record ProjectSummary : Type := {
  summary_project_id : string;
  summary_name : string;
  summary_category : string;
  summary_target_crop : string;
  summary_status : AgentState;
  summary_overall_score : Z;
  summary_created_at : Z;
  summary_analyzed_at : Z
}.

Record ProjectPage : Type := {
  projects : list ProjectSummary;
  total : Z;
  page_limit : Z;
  page_offset : Z
}.

Definition list_projects (filter : StatusFilter) (limit offset : Z)
    (current : User) : M Server ProjectPage :=
  let* created := datetime_now in
  let* analyzed := datetime_now in
  ret {| projects :=
           [{| summary_project_id := "proj-abc123";
               summary_name := "Bioestimulante Algas Soja";
               summary_category := "bioestimulantes";
               summary_target_crop := "soja";
               summary_status := completed;
               summary_overall_score := 82;
               summary_created_at := created;
               summary_analyzed_at := analyzed |}];
         total := 1;
         page_limit := limit;
         page_offset := offset |}.

(** A route over the server's surroundings. *)
Definition depends {A} (handler : User -> M Server A) (req : Request)
    : M Server A :=
  let* current := lift (current_user req) in
  handler current.

End Api.

(** * The aggregation rule of the design, for comparison with the mock

    The equal-weighted mean of the per-agent scores, as an integer
    score (rounded down). *)
Definition equal_weighted_mean (scores : list Z) : Z :=
  foldr Z.add 0 scores / Z.of_nat (length scores).

Definition agent_scores (a : Api.ProjectAnalysis) : list Z :=
  (fun kv => Api.score (snd kv)) <$> map_to_list (Api.agents a).

(** The sequence [run_ale_chat] is expected to hand to the agent: the
    context turn, the history, the new user turn. *)
Definition assembled (context : string) (hist : list Ale.Message)
    (user_message : string) : list Ale.Message :=
  Ale.user_turn context :: hist ++ [Ale.user_turn user_message].

(** The one-time injection rule of the design, read on [run_ale_chat]:
    a call that continues a conversation (its history is not empty)
    sends the history and the new user turn, and nothing else. *)
Definition context_injected_once (agent : Ale.Agent) : Prop :=
  forall user_message project_context h w hist,
    Ale.lists w !! h = Some hist ->
    hist <> [] ->
    Ale.sent (fst (Ale.run_ale_chat agent user_message project_context h w))
    = Ale.sent w ++ [hist ++ [Ale.user_turn user_message]].

(** The tool contract of the design, read on [buscar_portal_mapa]:
    whatever the collaborators do, the call itself returns. *)
Definition tool_never_raises : Prop :=
  forall ext termo tr,
    returns (snd (Ale.buscar_portal_mapa ext termo tr)).

(** What is alive after a sequence of calls: the Playwright driver and
    the browsers launched through it. A launch that returns adds its
    browser; [browser.close()] that returns takes that browser away;
    leaving the Playwright context stops the driver together with
    every browser launched through it. *)
Record Alive : Type := {
  driver : bool;
  browsers : list Ale.Browser
}.

Definition nothing_alive : Alive := {| driver := false; browsers := [] |}.

Definition same_browser (a b : Ale.Browser) : bool :=
  match a, b with
  | Ale.BrowserHandle n, Ale.BrowserHandle m => Nat.eqb n m
  end.

Definition after_call (ext : Ale.Externals) (alive : Alive) (ev : Ale.Event)
    : Alive :=
  match ev with
  | Ale.PlaywrightStart =>
      match Ale.playwright_start ext with
      | Ok _ => {| driver := true; browsers := browsers alive |}
      | Raise _ => alive
      end
  | Ale.ChromiumLaunch headless =>
      match Ale.chromium_launch ext headless with
      | Ok b => {| driver := driver alive; browsers := b :: browsers alive |}
      | Raise _ => alive
      end
  | Ale.ExtractAsync _ => alive
  | Ale.BrowserClose b =>
      match Ale.browser_close ext b with
      | Ok _ =>
          {| driver := driver alive;
             browsers :=
               filter (fun b' => same_browser b b' = false) (browsers alive) |}
      | Raise _ => alive
      end
  | Ale.PlaywrightStop => nothing_alive
  end.

Definition alive_after (ext : Ale.Externals) (tr : list Ale.Event) : Alive :=
  fold_left (after_call ext) tr nothing_alive.

Section RunsOfTheTool.
Import Ale.

(** The four ways a run can go, with the calls made on each. *)
Inductive Run (ext : Externals) (termo : string) : list Event -> Result string -> Prop :=
| RunNoPlaywright e :
    playwright_start ext = Raise e ->
    Run ext termo [PlaywrightStart] (Raise e)
| RunNoBrowser u e :
    playwright_start ext = Ok u ->
    chromium_launch ext true = Raise e ->
    Run ext termo [PlaywrightStart; ChromiumLaunch true; PlaywrightStop]
        (Raise e)
| RunNoExtraction u b e :
    playwright_start ext = Ok u ->
    chromium_launch ext true = Ok b ->
    extract_async ext (extract_request b termo) = Raise e ->
    Run ext termo
        [PlaywrightStart; ChromiumLaunch true;
         ExtractAsync (extract_request b termo); PlaywrightStop]
        (Raise e)
| RunExtracted u b result :
    playwright_start ext = Ok u ->
    chromium_launch ext true = Ok b ->
    extract_async ext (extract_request b termo) = Ok result ->
    Run ext termo
        [PlaywrightStart; ChromiumLaunch true;
         ExtractAsync (extract_request b termo); BrowserClose b;
         PlaywrightStop]
        (match browser_close ext b with
         | Ok _ => Ok (informacao_relevante (output_parsed result))
         | Raise e => Raise e
         end).

End RunsOfTheTool.

(** Scenario A of the design, read on an analysis: the overall score
    is the equal-weighted mean of the agents' scores and the
    recommendation is [VIAVEL_COM_AJUSTES]. *)
Definition scenario_A (a : Api.ProjectAnalysis) : Prop :=
  Api.overall_score a = equal_weighted_mean (agent_scores a)
  /\ Api.recommendation a = Api.VIAVEL_COM_AJUSTES.

(** The state of the module after [n] status polls of one project. *)
Definition polled (req : Api.Request) (id : string) (n : nat)
    (g : Api.Globals) : Api.Globals :=
  Nat.iter n (fun g' => fst (Api.GET_project_status req id g')) g.

(** The keys both prompts index with [project_context[...]], in the
    order the f-strings evaluate them, and the first of them that a
    dictionary lacks. *)
Definition required_keys : list string := ["name"; "category"; "target_crop"].

Definition first_missing (d : gmap string string) : option string :=
  head (filter (fun k => d !! k = None) required_keys).

(** The order of calls a Playwright session allows, given whether
    Playwright started and which browser the launch returned: enter;
    launch a headless browser; extract with the browser that was
    launched; close that same browser; leave. A session that started
    must launch before it leaves and must end by leaving; one that did
    not start ends right after trying to enter; extraction needs a
    launched browser; nothing follows leaving. *)
Inductive Phase : Type :=
| Outside
| Entered
| Launched
| Extracting (b : Ale.Browser)
| Closed
| Left.

Definition step (launched : option Ale.Browser) (ph : Phase)
    (ev : Ale.Event) : option Phase :=
  match ph, ev with
  | Outside, Ale.PlaywrightStart => Some Entered
  | Entered, Ale.ChromiumLaunch true => Some Launched
  | Launched, Ale.ExtractAsync req =>
      match launched with
      | Some b =>
          if same_browser b (Ale.browser req) then Some (Extracting b)
          else None
      | None => None
      end
  | Extracting b, Ale.BrowserClose b' =>
      if same_browser b b' then Some Closed else None
  | Launched, Ale.PlaywrightStop
  | Extracting _, Ale.PlaywrightStop
  | Closed, Ale.PlaywrightStop => Some Left
  | _, _ => None
  end.

Fixpoint steps (launched : option Ale.Browser) (ph : Phase)
    (tr : list Ale.Event) : option Phase :=
  match tr with
  | [] => Some ph
  | ev :: tr' =>
      match step launched ph ev with
      | Some ph' => steps launched ph' tr'
      | None => None
      end
  end.

Definition conforms (started : bool) (launched : option Ale.Browser)
    (tr : list Ale.Event) : bool :=
  match steps launched Outside tr, started with
  | Some Left, true => true
  | Some Entered, false => true
  | _, _ => false
  end.

(** What the collaborators of a run answer to the two opening calls. *)
Definition playwright_started (ext : Ale.Externals) : bool :=
  match Ale.playwright_start ext with Ok _ => true | Raise _ => false end.

Definition launched_browser (ext : Ale.Externals) : option Ale.Browser :=
  match Ale.chromium_launch ext true with
  | Ok b => Some b
  | Raise _ => None
  end.

(** The identifier the next [create_project] gives out. *)
Definition next_project_id (s : Api.Server) : string :=
  "proj-" +:+ Api.str_take 8 (Api.uuid_hex s (Api.drawn s)).

(** [create_project] can write its upload: "uploads" is not a regular
    file and no directory sits at the path of the PDF. *)
Definition can_store (s : Api.Server) (id : string) : Prop :=
  Api.files s !! "uploads" = None
  /\ Api.upload_path id ∉ Api.directories s.

(** The agent ids of the chat route,
    [Literal["ale", "merc", "pat", "dex"]]. *)
Definition known_agents : list string := ["ale"; "merc"; "pat"; "dex"].

(** The mean of the per-agent progress, rounded down. *)
Definition mean_progress (snapshot : Api.ProjectStatus) : Z :=
  equal_weighted_mean
    ((fun kv => Api.progress_percent (snd kv))
       <$> map_to_list (Api.progress snapshot)).

(** What a status entry must satisfy to be coherent. *)
Definition coherent_progress (p : Api.AgentProgress) : Prop :=
  0 <= Api.progress_percent p <= 100
  /\ 0 <= Api.estimated_time_remaining_seconds p
  /\ (Api.status p = Api.completed <-> Api.progress_percent p = 100)
  /\ (Api.status p = Api.completed ->
      Api.estimated_time_remaining_seconds p = 0)
  /\ (Api.status p = Api.pending -> Api.progress_percent p = 0).

(** * Concrete inputs used by the examples below *)

Module Samples.
Import Ale.

Definition extracted : ExtractionResult :=
  {| output_parsed :=
       {| informacao_relevante := "IN 61/2020";
          numero_normativa := Some "61";
          data_publicacao := None |} |}.

(** Every collaborator answers. *)
Definition all_ok : Externals :=
  {| playwright_start := Ok tt;
     chromium_launch := fun _ => Ok (BrowserHandle 0);
     extract_async := fun _ => Ok extracted;
     browser_close := fun _ => Ok tt |}.

(** The browser starts, the extraction times out. *)
Definition extract_fails : Externals :=
  {| playwright_start := Ok tt;
     chromium_launch := fun _ => Ok (BrowserHandle 0);
     extract_async := fun _ => Raise (ExternalError "TimeoutError");
     browser_close := fun _ => Ok tt |}.

Definition soja : gmap string string :=
  list_to_map
    [("name", "Bioestimulante Algas Soja");
     ("category", "bioestimulantes");
     ("target_crop", "soja")].

(** The context turn's text for [soja]. *)
Definition soja_context : string :=
  newline +:+ indent +:+ "[CONTEXTO DO PROJETO]"
  +:+ newline +:+ indent +:+ "Nome: Bioestimulante Algas Soja"
  +:+ newline +:+ indent +:+ "Categoria: bioestimulantes"
  +:+ newline +:+ indent +:+ "Cultura: soja"
  +:+ newline +:+ indent +:+ "Status Regulatório Atual: Em análise"
  +:+ newline +:+ indent.

Definition termo : string := "bioestimulantes registro".

(** A request with no credentials at all. *)
Definition anonymous : Api.Request := {| Api.authorization := None |}.

Definition q1 : string := "Qual o prazo de registro?".
Definition q2 : string := "E o custo?".
Definition a1 : Message := AssistantMessage [{| text := "18-24 meses." |}].

(** A model that always answers, and one that answers with nothing. *)
Definition talkative : Agent := fun _ => Ok {| content := [{| text := "18-24 meses." |}] |}.
Definition silent : Agent := fun _ => Ok {| content := [] |}.

(** A store whose only list is the caller's history, at reference 1. *)
Definition store (history : list Message) : ChatWorld :=
  {| lists := {[ 1%positive := history ]}; sent := [] |}.

(** A project context that lacks the crop. *)
Definition no_crop : gmap string string :=
  list_to_map
    [("name", "Bioestimulante Algas Soja");
     ("category", "bioestimulantes")].

(** The browser starts and the page is extracted, closing fails. *)
Definition close_fails : Externals :=
  {| playwright_start := Ok tt;
     chromium_launch := fun _ => Ok (BrowserHandle 0);
     extract_async := fun _ => Ok extracted;
     browser_close := fun _ => Raise (ExternalError "TargetClosedError") |}.

(** Playwright itself does not start. *)
Definition no_playwright : Externals :=
  {| playwright_start := Raise (ExternalError "DriverNotFound");
     chromium_launch := fun _ => Ok (BrowserHandle 0);
     extract_async := fun _ => Ok extracted;
     browser_close := fun _ => Ok tt |}.

Definition regulatory : AleResponse :=
  {| viabilidade_regulatoria := "verde";
     prazo_estimado_meses := "18-24";
     custo_estimado := "R$ 140K-180K";
     caminho_registro := "SIPEAGRO";
     alertas := [];
     resumo := "Via livre";
     fonte_normativa := Some "IN 61/2020" |}.

Definition analyst : AnalysisAgent := fun _ => Ok {| parsed := regulatory |}.

(** A model that fails, and one whose first part is empty. *)
Definition failing : Agent := fun _ => Raise (ExternalError "RateLimit").
Definition blank : Agent :=
  fun _ => Ok {| content := [{| text := "" |}; {| text := "18-24 meses." |}] |}.

(** UUIDs whose first eight digits differ, and UUIDs that agree on
    them. *)
Definition distinct_uuids (n : nat) : string :=
  match n with
  | O => "3f2a9c1e5b7d4e6f8a0b1c2d3e4f5a6b"
  | 1%nat => "0c4d8e2a6b1f4c3d9e7a5b3c1d0e2f4a"
  | _ => "9a8b7c6d5e4f40319c2b1a0f9e8d7c6b"
  end.

Definition clashing_uuids (n : nat) : string :=
  match n with
  | O => "3f2a9c1e5b7d4e6f8a0b1c2d3e4f5a6b"
  | _ => "3f2a9c1e00004000800000000000beef"
  end.

Definition server (uuids : nat -> string) : Api.Server :=
  {| Api.files := ∅;
     Api.directories := ∅;
     Api.uuid_hex := uuids;
     Api.drawn := 0;
     Api.clock_at := fun n => 1700000000 + Z.of_nat n;
     Api.clock_reads := 0 |}.

Definition pdf1 : list Byte.byte := [Byte.x25; Byte.x50; Byte.x44; Byte.x46].
Definition pdf2 : list Byte.byte :=
  [Byte.x25; Byte.x50; Byte.x44; Byte.x46; Byte.x2d].

Definition colaborador : Api.User :=
  {| Api.user_id := "user-1"; Api.role := "colaborador" |}.

End Samples.

(** * Properties of the chat entry point *)

Section Chat.
Import Ale.

Implicit Types (w : ChatWorld) (r h : positive) (l hist : list Message).

Lemma fresh_not_live w h hist :
  lists w !! h = Some hist -> fresh (dom (lists w)) <> h.
Proof.
  intros Hlive Heq.
  assert (Hin : h ∈ dom (lists w)) by (apply elem_of_dom; eauto).
  rewrite <- Heq in Hin. by apply is_fresh in Hin.
Qed.

Lemma items_set_items_eq w r l : items (set_items r l w) r = l.
Proof. unfold items, set_items. simpl. by rewrite lookup_insert_eq. Qed.

Lemma items_set_items_ne w r h l :
  r <> h -> items (set_items r l w) h = items w h.
Proof. intros Hne. unfold items, set_items. simpl. by rewrite lookup_insert_ne. Qed.

Lemma items_live w h hist : lists w !! h = Some hist -> items w h = hist.
Proof. intros Hlive. unfold items. by rewrite Hlive. Qed.

Lemma set_items_twice w r l l' :
  set_items r l' (set_items r l w) = set_items r l' w.
Proof. unfold set_items. simpl. by rewrite insert_insert_eq. Qed.

(** One run, step by step: a new list object receives the context
    turn, the history's items and the new user turn; its items are
    what the agent is given; the answer is reduced to a text. *)
Lemma run_ale_chat_run agent user_message project_context h w hist context :
  lists w !! h = Some hist ->
  context_message project_context = Ok context ->
  run_ale_chat agent user_message project_context h w =
    (let msgs := assembled context hist user_message in
     ({| lists := <[fresh (dom (lists w)) := msgs]> (lists w);
         sent := sent w ++ [msgs] |},
      match agent msgs with
      | Ok output => Ok (reply_text output)
      | Raise e => Raise e
      end)).
Proof.
  intros Hlive Hctx.
  pose proof (fresh_not_live _ _ _ Hlive) as Hfresh.
  unfold run_ale_chat, bind, lift. rewrite Hctx.
  unfold new_list, list_extend, list_append, run_async. cbn zeta.
  set (m := fresh (dom (lists w))) in *.
  rewrite !set_items_twice, !items_set_items_eq.
  rewrite (items_set_items_ne _ _ _ _ Hfresh), (items_live _ _ _ Hlive).
  rewrite <- app_assoc. simpl. unfold assembled, ret.
  destruct (agent _); reflexivity.
Qed.

(** A project context without one of the three keys stops the call
    before anything is allocated or sent. *)
Lemma run_ale_chat_key_error agent user_message project_context h w e :
  context_message project_context = Raise e ->
  run_ale_chat agent user_message project_context h w = (w, Raise e).
Proof.
  intros Hctx. unfold run_ale_chat, bind, lift. by rewrite Hctx.
Qed.

(** C1, as amended. [run_ale_chat] keeps no session state: on every
    call, whether the history is empty or not, exactly one sequence is
    sent to the agent and it is the context turn followed by the
    history and the new user turn. The context turn is therefore sent
    again on each later turn of a conversation. *)
Theorem run_ale_chat_injects_context_on_every_call
    agent user_message project_context h w hist context :
  lists w !! h = Some hist ->
  context_message project_context = Ok context ->
  sent (fst (run_ale_chat agent user_message project_context h w))
  = sent w ++ [user_turn context :: hist ++ [user_turn user_message]].
Proof.
  intros Hlive Hctx.
  by rewrite (run_ale_chat_run _ _ _ _ _ _ _ Hlive Hctx).
Qed.

Lemma run_ale_chat_injects_context_on_every_call_witness :
  sent (fst (run_ale_chat Samples.talkative Samples.q2 Samples.soja 1
               (Samples.store [user_turn Samples.q1; Samples.a1])))
  = [] ++ [user_turn Samples.soja_context
           :: [user_turn Samples.q1; Samples.a1] ++ [user_turn Samples.q2]].
Proof.
  exact (run_ale_chat_injects_context_on_every_call
           Samples.talkative Samples.q2 Samples.soja 1
           (Samples.store [user_turn Samples.q1; Samples.a1])
           [user_turn Samples.q1; Samples.a1] Samples.soja_context
           eq_refl eq_refl).
Defined.

(** C1, as stated, fails on the second turn of a conversation: with
    the first question and its answer as history, the call sends the
    context turn again, in front of the history. *)
Lemma context_reinjected_on_second_turn :
  sent (fst (run_ale_chat Samples.talkative Samples.q2 Samples.soja 1
               (Samples.store [user_turn Samples.q1; Samples.a1])))
  = [[user_turn Samples.soja_context; user_turn Samples.q1; Samples.a1;
      user_turn Samples.q2]]
  /\ ~ context_injected_once Samples.talkative.
Proof.
  assert (Hsent :
    sent (fst (run_ale_chat Samples.talkative Samples.q2 Samples.soja 1
                 (Samples.store [user_turn Samples.q1; Samples.a1])))
    = [[user_turn Samples.soja_context; user_turn Samples.q1; Samples.a1;
        user_turn Samples.q2]]) by (vm_compute; reflexivity).
  split; [exact Hsent |].
  intros Hrule.
  specialize (Hrule Samples.q2 Samples.soja 1%positive
                (Samples.store [user_turn Samples.q1; Samples.a1])
                [user_turn Samples.q1; Samples.a1] eq_refl).
  rewrite Hsent in Hrule. simpl in Hrule.
  assert (Hne : [user_turn Samples.q1; Samples.a1] <> []) by discriminate.
  specialize (Hrule Hne). discriminate Hrule.
Qed.

(** C5. When the model answers with no content, the chat call returns
    the fixed apology text, which is not the empty string. *)
Theorem run_ale_chat_fallback
    agent user_message project_context h w hist context output :
  lists w !! h = Some hist ->
  context_message project_context = Ok context ->
  agent (user_turn context :: hist ++ [user_turn user_message]) = Ok output ->
  content output = [] ->
  snd (run_ale_chat agent user_message project_context h w)
  = Ok fallback_message
  /\ fallback_message <> "".
Proof.
  intros Hlive Hctx Hout Hempty.
  rewrite (run_ale_chat_run _ _ _ _ _ _ _ Hlive Hctx). simpl.
  unfold assembled. rewrite Hout. unfold reply_text. rewrite Hempty.
  split; [reflexivity | discriminate].
Qed.

Lemma run_ale_chat_fallback_witness :
  snd (run_ale_chat Samples.silent Samples.q1 Samples.soja 1
         (Samples.store []))
  = Ok fallback_message
  /\ fallback_message <> "".
Proof.
  exact (run_ale_chat_fallback Samples.silent Samples.q1 Samples.soja 1
           (Samples.store []) [] Samples.soja_context {| content := [] |}
           eq_refl eq_refl eq_refl eq_refl).
Defined.

(** C8. A chat call hands the agent one sequence: the context turn at
    position 0, then the items of the history in their order, then the
    new user turn at the last position; the reply returned to the
    caller is read from the agent's answer to that very sequence. With
    no earlier turns the sequence is the context turn followed by the
    user turn. *)
Theorem run_ale_chat_message_order
    agent user_message project_context h w hist context :
  lists w !! h = Some hist ->
  context_message project_context = Ok context ->
  exists msgs : list Message,
    sent (fst (run_ale_chat agent user_message project_context h w))
    = sent w ++ [msgs]
    /\ snd (run_ale_chat agent user_message project_context h w)
       = match agent msgs with
         | Ok output => Ok (reply_text output)
         | Raise e => Raise e
         end
    /\ length msgs = S (S (length hist))
    /\ msgs !! 0%nat = Some (user_turn context)
    /\ (forall i : nat, (i < length hist)%nat -> msgs !! S i = hist !! i)
    /\ msgs !! S (length hist) = Some (user_turn user_message)
    /\ (hist = [] -> msgs = [user_turn context; user_turn user_message]).
Proof.
  intros Hlive Hctx.
  exists (assembled context hist user_message).
  rewrite (run_ale_chat_run _ _ _ _ _ _ _ Hlive Hctx). simpl.
  unfold assembled.
  repeat split.
  - simpl. rewrite length_app. simpl. lia.
  - intros i Hi. simpl. by rewrite lookup_app_l.
  - simpl. rewrite lookup_app_r by lia.
    by replace (length hist - length hist)%nat with 0%nat by lia.
  - intros ->. reflexivity.
Qed.

Lemma run_ale_chat_message_order_witness :
  exists msgs : list Message,
    sent (fst (run_ale_chat Samples.talkative Samples.q1 Samples.soja 1
                 (Samples.store [])))
    = [] ++ [msgs]
    /\ snd (run_ale_chat Samples.talkative Samples.q1 Samples.soja 1
              (Samples.store []))
       = match Samples.talkative msgs with
         | Ok output => Ok (reply_text output)
         | Raise e => Raise e
         end
    /\ length msgs = S (S (length (@nil Message)))
    /\ msgs !! 0%nat = Some (user_turn Samples.soja_context)
    /\ (forall i : nat,
          (i < length (@nil Message))%nat ->
          msgs !! S i = (@nil Message) !! i)
    /\ msgs !! S (length (@nil Message)) = Some (user_turn Samples.q1)
    /\ (@nil Message = [] ->
        msgs = [user_turn Samples.soja_context; user_turn Samples.q1]).
Proof.
  exact (run_ale_chat_message_order Samples.talkative Samples.q1
           Samples.soja 1 (Samples.store []) [] Samples.soja_context
           eq_refl eq_refl).
Defined.

(** C10. The list object passed as [chat_history] has the same items
    after the call as before it, and so has every other list that was
    live: the only list written is one allocated by the call. *)
Theorem run_ale_chat_leaves_history_unchanged
    agent user_message project_context h w hist :
  lists w !! h = Some hist ->
  lists (fst (run_ale_chat agent user_message project_context h w)) !! h
  = Some hist
  /\ (forall r l,
        lists w !! r = Some l ->
        lists (fst (run_ale_chat agent user_message project_context h w)) !! r
        = Some l)
  /\ (forall context,
        context_message project_context = Ok context ->
        exists m : positive,
          lists w !! m = None
          /\ lists (fst (run_ale_chat agent user_message project_context h w))
               !! m
             = Some (user_turn context :: hist ++ [user_turn user_message])).
Proof.
  intros Hlive.
  assert (Hframe : forall r l,
    lists w !! r = Some l ->
    lists (fst (run_ale_chat agent user_message project_context h w)) !! r
    = Some l).
  { intros r l Hr.
    destruct (context_message project_context) as [context | e] eqn:Hctx.
    - rewrite (run_ale_chat_run _ _ _ _ _ _ _ Hlive Hctx). simpl.
      rewrite lookup_insert_ne; [done |]. by eapply fresh_not_live.
    - by rewrite (run_ale_chat_key_error _ _ _ _ _ _ Hctx). }
  split; [by apply Hframe |]. split; [exact Hframe |].
  intros context Hctx. exists (fresh (dom (lists w))). split.
  - apply not_elem_of_dom, is_fresh.
  - rewrite (run_ale_chat_run _ _ _ _ _ _ _ Hlive Hctx). simpl.
    by rewrite lookup_insert_eq.
Qed.

Lemma run_ale_chat_leaves_history_unchanged_witness :
  lists (fst (run_ale_chat Samples.talkative Samples.q2 Samples.soja 1
                (Samples.store [user_turn Samples.q1; Samples.a1])))
    !! 1%positive
  = Some [user_turn Samples.q1; Samples.a1].
Proof.
  exact (proj1 (run_ale_chat_leaves_history_unchanged
                  Samples.talkative Samples.q2 Samples.soja 1
                  (Samples.store [user_turn Samples.q1; Samples.a1])
                  [user_turn Samples.q1; Samples.a1] eq_refl)).
Defined.

End Chat.

(** * Properties of the web-extraction tool *)

Section Tool.
Import Ale.

Implicit Types (ext : Externals) (termo : string) (tr : list Event).

Lemma buscar_portal_mapa_run ext termo tr :
  exists calls outcome,
    Run ext termo calls outcome
    /\ buscar_portal_mapa ext termo tr = (tr ++ calls, outcome).
Proof.
  unfold buscar_portal_mapa, async_with, bind, call, ret.
  destruct (playwright_start ext) as [u | e] eqn:Hstart.
  2: { eexists _, _. split; [by apply RunNoPlaywright |]. done. }
  destruct (chromium_launch ext true) as [b | e] eqn:Hlaunch.
  2: { eexists _, _. split; [by eapply RunNoBrowser |].
       rewrite <- !app_assoc. reflexivity. }
  destruct (extract_async ext (extract_request b termo)) as [res | e] eqn:Hext.
  2: { eexists _, _. split; [by eapply RunNoExtraction |].
       rewrite <- !app_assoc. reflexivity. }
  eexists _, _. split; [by eapply RunExtracted |].
  destruct (browser_close ext b); rewrite <- !app_assoc; reflexivity.
Qed.

Lemma buscar_portal_mapa_fresh_run ext termo :
  Run ext termo (fst (buscar_portal_mapa ext termo []))
      (snd (buscar_portal_mapa ext termo [])).
Proof.
  destruct (buscar_portal_mapa_run ext termo []) as (calls & outcome & Hrun & ->).
  exact Hrun.
Qed.

(** Leaving the Playwright context is the last call of every run that
    entered it. *)
Lemma playwright_stop_on_every_exit ext termo u :
  playwright_start ext = Ok u ->
  last (fst (buscar_portal_mapa ext termo [])) = Some PlaywrightStop.
Proof.
  intros Hstart.
  destruct (buscar_portal_mapa_fresh_run ext termo); try reflexivity.
  congruence.
Qed.

(** [browser.close()] is reached exactly when the extraction returned. *)
Lemma browser_close_reached_iff ext termo b :
  BrowserClose b ∈ fst (buscar_portal_mapa ext termo [])
  <-> (exists u result,
         playwright_start ext = Ok u
         /\ chromium_launch ext true = Ok b
         /\ extract_async ext (extract_request b termo) = Ok result).
Proof.
  split.
  - intros Hin.
    destruct (buscar_portal_mapa_fresh_run ext termo) as [| | |u b' result];
      repeat (apply elem_of_cons in Hin as [Hin | Hin]; [discriminate |]);
      try by apply elem_of_nil in Hin.
    all: try (apply elem_of_cons in Hin as [Hin | Hin];
              [injection Hin as -> | ]).
    all: try (repeat (apply elem_of_cons in Hin as [Hin | Hin];
                      [discriminate |]); by apply elem_of_nil in Hin).
    eauto.
  - intros (u & result & Hstart & Hlaunch & Hext).
    destruct (buscar_portal_mapa_fresh_run ext termo) as [| | |u' b' result'];
      try congruence.
    assert (b' = b) as -> by congruence.
    set_solver.
Qed.

(** C3, as amended. The tool has no handler of its own: it returns
    the extracted text when Playwright, the launch, the extraction and
    the close all succeed, and otherwise the exception of the first
    call that failed reaches the caller unchanged. *)
Theorem buscar_portal_mapa_propagates ext termo tr :
  snd (buscar_portal_mapa ext termo tr)
  = match playwright_start ext with
    | Raise e => Raise e
    | Ok _ =>
      match chromium_launch ext true with
      | Raise e => Raise e
      | Ok b =>
        match extract_async ext (extract_request b termo) with
        | Raise e => Raise e
        | Ok result =>
          match browser_close ext b with
          | Raise e => Raise e
          | Ok _ => Ok (informacao_relevante (output_parsed result))
          end
        end
      end
    end.
Proof.
  destruct (buscar_portal_mapa_run ext termo tr)
    as (calls & outcome & Hrun & ->).
  simpl. destruct Hrun as [e H1 | u e H1 H2 | u b e H1 H2 H3 | u b r H1 H2 H3];
    rewrite H1; try rewrite H2; try rewrite H3; reflexivity.
Qed.

(** C3, as stated, fails when the extraction raises: the exception
    leaves [buscar_portal_mapa]. *)
Lemma extraction_error_reaches_caller :
  snd (buscar_portal_mapa Samples.extract_fails Samples.termo [])
  = Raise (ExternalError "TimeoutError")
  /\ ~ tool_never_raises.
Proof.
  split; [reflexivity |].
  intros Hnever.
  exact (Hnever Samples.extract_fails Samples.termo []).
Qed.

(** C4. However a run of the tool ends, nothing it started is alive
    afterwards: neither the Playwright driver nor a browser. In
    particular, when the browser was launched and the extraction
    raises, [browser.close()] is not reached, the browser is still
    alive after the extraction call, and leaving the Playwright
    context, the last call of the run, takes it down before the
    exception reaches the caller. *)
Theorem browser_torn_down_on_every_exit ext termo :
  alive_after ext (fst (buscar_portal_mapa ext termo [])) = nothing_alive
  /\ (forall u b e,
        playwright_start ext = Ok u ->
        chromium_launch ext true = Ok b ->
        extract_async ext (extract_request b termo) = Raise e ->
        exists calls,
          buscar_portal_mapa ext termo []
          = (calls ++ [PlaywrightStop], Raise e)
          /\ alive_after ext calls = {| driver := true; browsers := [b] |}
          /\ BrowserClose b ∉ calls).
Proof.
  split.
  - destruct (buscar_portal_mapa_fresh_run ext termo)
      as [e H1 | u e H1 H2 | u b e H1 H2 H3 | u b r H1 H2 H3];
      unfold alive_after; simpl; try rewrite H1; try rewrite H2;
      reflexivity.
  - intros u b e Hstart Hlaunch Hext.
    exists [PlaywrightStart; ChromiumLaunch true;
            ExtractAsync (extract_request b termo)].
    split; [| split].
    + unfold buscar_portal_mapa, async_with, bind, call. simpl.
      by rewrite Hstart, Hlaunch, Hext.
    + unfold alive_after. simpl. by rewrite Hstart, Hlaunch.
    + intros Hin.
      repeat (apply elem_of_cons in Hin as [Hin | Hin]; [discriminate |]).
      by apply elem_of_nil in Hin.
Qed.

(** C6. Every extraction call the tool makes is configured with the
    tool's preferences, whose timeout is 15000 ms, between 15 and 20
    seconds; and the call is made, with that timeout, on every run in
    which Playwright started and the browser was launched. *)
Theorem buscar_portal_mapa_timeout_bounded ext termo :
  (forall req,
     ExtractAsync req ∈ fst (buscar_portal_mapa ext termo []) ->
     extraction_preferences req = preferences
     /\ timeout_ms (extraction_preferences req) = 15000
     /\ 15 * 1000 <= timeout_ms (extraction_preferences req) <= 20 * 1000)
  /\ (forall u b,
        playwright_start ext = Ok u ->
        chromium_launch ext true = Ok b ->
        ExtractAsync (extract_request b termo)
          ∈ fst (buscar_portal_mapa ext termo [])
        /\ timeout_ms (extraction_preferences (extract_request b termo))
           = 15000).
Proof.
  split.
  - intros req Hin.
    assert (Hreq : exists b, req = extract_request b termo).
    { destruct (buscar_portal_mapa_fresh_run ext termo)
        as [e H1 | u e H1 H2 | u b e H1 H2 H3 | u b r H1 H2 H3].
      all: repeat (apply elem_of_cons in Hin as [Hin | Hin];
                   [first [discriminate Hin
                          | injection Hin as ->; by eexists] |]).
      all: by apply elem_of_nil in Hin. }
    destruct Hreq as [b ->]. simpl. repeat split; lia.
  - intros u b Hstart Hlaunch. split; [| reflexivity].
    destruct (buscar_portal_mapa_fresh_run ext termo)
      as [e H1 | u' e H1 H2 | u' b' e H1 H2 H3 | u' b' r H1 H2 H3];
      try congruence.
    all: assert (b' = b) as -> by congruence; set_solver.
Qed.

End Tool.

(** * Properties of the HTTP endpoints *)

Section Endpoints.
Import Api.

Implicit Types (req : Request) (id : string) (g : Globals).

Lemma current_user_fixed req :
  current_user req = Ok {| user_id := "user-1"; role := "colaborador" |}.
Proof. reflexivity. Qed.

(** The check does reject an empty token, when it is given one. *)
Lemma verify_token_rejects_empty :
  verify_token "" = Raise (HTTPException 401 "Token não fornecido").
Proof. reflexivity. Qed.

Lemma verify_token_accepts token :
  token <> "" ->
  verify_token token = Ok {| user_id := "user-1"; role := "colaborador" |}.
Proof. intros Hne. destruct token; [congruence | reflexivity]. Qed.

Lemma route_runs_handler {A} (handler : User -> M Globals A) req g :
  route handler req g
  = handler {| user_id := "user-1"; role := "colaborador" |} g.
Proof. reflexivity. Qed.

(** C9. The token an endpoint checks is always the non-empty default,
    so for every request the check yields the fixed user and the
    routes that depend on it return instead of raising the 401. *)
Theorem verify_token_never_raises req :
  token_dependency req = "mock_token"
  /\ falsy (token_dependency req) = false
  /\ current_user req = Ok {| user_id := "user-1"; role := "colaborador" |}
  /\ (forall id g, returns (snd (GET_project_status req id g)))
  /\ (forall id g, returns (snd (GET_project_analysis req id g))).
Proof.
  repeat split.
Qed.

(** C7. Polling the status of a project any number of times leaves
    the module's state as it was, and a further call returns the same
    snapshot as the first one: same per-agent state, progress and
    remaining time. *)
Theorem get_project_status_idempotent req id g (n : nat) :
  polled req id n g = g
  /\ GET_project_status req id (polled req id n g)
     = GET_project_status req id g
  /\ exists snapshot,
       snd (GET_project_status req id g) = Ok snapshot
       /\ status_project_id snapshot = id
       /\ progress snapshot
          = list_to_map
              [("ale", {| status := completed; progress_percent := 100;
                          estimated_time_remaining_seconds := 0 |});
               ("merc", {| status := processing; progress_percent := 75;
                           estimated_time_remaining_seconds := 15 |});
               ("pat", {| status := processing; progress_percent := 50;
                          estimated_time_remaining_seconds := 30 |});
               ("dex", {| status := pending; progress_percent := 0;
                          estimated_time_remaining_seconds := 60 |})].
Proof.
  assert (Hsame : polled req id n g = g).
  { unfold polled. induction n as [| n IH]; [reflexivity |].
    rewrite Nat.iter_succ, IH. reflexivity. }
  split; [exact Hsame |]. split; [by rewrite Hsame |].
  eexists. repeat split.
Qed.

(** C2, as amended. For every project id the analysis endpoint
    returns the four agents with scores 90, 85, 75, 88 and statuses
    verde, verde, amarelo, verde, the stored overall score 82 and the
    recommendation VIAVEL_COM_AJUSTES; the global mock is not changed. *)
Theorem get_project_analysis_mock req id (now : Z) :
  exists a,
    GET_project_analysis req id (module_loaded now)
    = (module_loaded now, Ok a)
    /\ project_id a = id
    /\ score <$> agents a
       = list_to_map [("ale", 90); ("merc", 85); ("pat", 75); ("dex", 88)]
    /\ agent_status <$> agents a
       = list_to_map [("ale", verde); ("merc", verde);
                      ("pat", amarelo); ("dex", verde)]
    /\ overall_score a = 82
    /\ recommendation a = VIAVEL_COM_AJUSTES.
Proof.
  eexists. split; [reflexivity |].
  repeat split; vm_compute; reflexivity.
Qed.

(** C2, as stated, fails: the scores 90, 85, 75, 88 have mean 84 (their
    sum is 338), the endpoint returns 82. *)
Lemma mock_overall_score_is_not_the_mean :
  exists a,
    snd (GET_project_analysis Samples.anonymous "p1" (module_loaded 0))
    = Ok a
    /\ foldr Z.add 0 (agent_scores a) = 338
    /\ equal_weighted_mean (agent_scores a) = 84
    /\ overall_score a = 82
    /\ ~ scenario_A a.
Proof.
  eexists. split; [reflexivity |].
  assert (Hmean :
    equal_weighted_mean
      (agent_scores (with_project_id "p1" (MOCK_ANALYSIS_DATA 0))) = 84)
    by (vm_compute; reflexivity).
  split; [vm_compute; reflexivity |].
  split; [exact Hmean |].
  split; [reflexivity |].
  intros [Hscore _].
  assert (Hclash : (82 : Z) = 84) by (rewrite <- Hmean; exact Hscore).
  discriminate Hclash.
Qed.

End Endpoints.

(** * Project contexts: required and optional keys *)

Section Prompts.
Import Ale.

Implicit Types (pc : gmap string string) (w : ChatWorld) (h : positive).

Lemma first_missing_cases pc :
  first_missing pc =
    match pc !! "name", pc !! "category", pc !! "target_crop" with
    | None, _, _ => Some "name"
    | Some _, None, _ => Some "category"
    | Some _, Some _, None => Some "target_crop"
    | Some _, Some _, Some _ => None
    end.
Proof.
  unfold first_missing, required_keys.
  rewrite !filter_cons, filter_nil.
  destruct (pc !! "name"), (pc !! "category"), (pc !! "target_crop");
    repeat case_decide; try congruence; reflexivity.
Qed.

Lemma context_message_first_missing pc :
  match first_missing pc with
  | Some k => context_message pc = Raise (KeyError k)
  | None => returns (context_message pc)
  end.
Proof.
  rewrite first_missing_cases. unfold context_message, getitem.
  destruct (pc !! "name"), (pc !! "category"), (pc !! "target_crop");
    simpl; done.
Qed.

Lemma user_prompt_first_missing pc :
  match first_missing pc with
  | Some k => user_prompt pc = Raise (KeyError k)
  | None => returns (user_prompt pc)
  end.
Proof.
  rewrite first_missing_cases. unfold user_prompt, getitem.
  destruct (pc !! "name"), (pc !! "category"), (pc !! "target_crop");
    simpl; done.
Qed.

(** X1. Chat and analysis accept the same project contexts: each of
    the two prompts can be built exactly when the dictionary has the
    keys name, category and target_crop. *)
Theorem prompts_need_the_three_keys pc :
  (returns (context_message pc)
   <-> forall k, k ∈ required_keys -> is_Some (pc !! k))
  /\ (returns (user_prompt pc)
      <-> forall k, k ∈ required_keys -> is_Some (pc !! k)).
Proof.
  pose proof (context_message_first_missing pc) as Hchat.
  pose proof (user_prompt_first_missing pc) as Hanalysis.
  rewrite first_missing_cases in Hchat, Hanalysis.
  assert (Hkeys :
    (forall k, k ∈ required_keys -> is_Some (pc !! k))
    <-> is_Some (pc !! "name") /\ is_Some (pc !! "category")
        /\ is_Some (pc !! "target_crop")).
  { unfold required_keys. split.
    - intros Hall. repeat split; apply Hall; set_solver.
    - intros (H1 & H2 & H3) k Hk.
      repeat (apply elem_of_cons in Hk as [-> | Hk]; [done |]).
      by apply elem_of_nil in Hk. }
  rewrite Hkeys.
  destruct (pc !! "name"), (pc !! "category"), (pc !! "target_crop");
    try rewrite Hchat; try rewrite Hanalysis; simpl;
    split; split; intros H; try done;
    try (destruct H as (H1 & H2 & H3);
         first [by inversion H1 | by inversion H2 | by inversion H3]);
    eauto.
Qed.

(** X2. With a key missing, both entry points, taken from their first
    statement, end as follows: if building the agent raises, that
    exception is passed on; once the agent is built, the call raises
    the KeyError of the first missing key (name before category before
    target_crop). In both cases no message list is created and the
    agent is never run. *)
Theorem missing_key_stops_before_the_agent
    (build_chat : Result Agent) (build_analysis : Result AnalysisAgent)
    user_message pc h w k :
  first_missing pc = Some k ->
  run_ale_chat_call build_chat user_message pc h w
  = (w, match build_chat with
        | Ok _ => Raise (KeyError k)
        | Raise e => Raise e
        end)
  /\ run_ale_analysis_call build_analysis pc w
     = (w, match build_analysis with
           | Ok _ => Raise (KeyError k)
           | Raise e => Raise e
           end).
Proof.
  intros Hmiss.
  pose proof (context_message_first_missing pc) as Hchat.
  pose proof (user_prompt_first_missing pc) as Hanalysis.
  rewrite Hmiss in Hchat, Hanalysis. split.
  - unfold run_ale_chat_call, bind, lift.
    destruct build_chat as [agent | e]; [| reflexivity].
    unfold run_ale_chat, bind, lift. by rewrite Hchat.
  - unfold run_ale_analysis_call, bind, lift.
    destruct build_analysis as [agent | e]; [| reflexivity].
    unfold run_ale_analysis, bind, lift. by rewrite Hanalysis.
Qed.

Lemma missing_key_stops_before_the_agent_witness :
  run_ale_chat_call (Ok Samples.talkative) Samples.q1 Samples.no_crop 1
    (Samples.store [])
  = (Samples.store [], Raise (KeyError "target_crop"))
  /\ run_ale_analysis_call (Raise (ExternalError "MissingApiKey"))
       Samples.no_crop (Samples.store [])
     = (Samples.store [], Raise (ExternalError "MissingApiKey")).
Proof.
  exact (missing_key_stops_before_the_agent
           (Ok Samples.talkative) (Raise (ExternalError "MissingApiKey"))
           Samples.q1 Samples.no_crop 1 (Samples.store [])
           "target_crop" eq_refl).
Defined.

(** X3. The regulatory status is optional in chat: leaving it out is
    the same as giving "Em análise". *)
Theorem context_message_status_default pc :
  pc !! "status_regulatorio" = None ->
  context_message pc
  = context_message (<["status_regulatorio" := "Em análise"]> pc).
Proof.
  intros Habsent. unfold context_message, getitem, dict_get.
  rewrite !lookup_insert_ne by done.
  by rewrite lookup_insert_eq, Habsent.
Qed.

Lemma context_message_status_default_witness :
  context_message Samples.soja
  = context_message (<["status_regulatorio" := "Em análise"]> Samples.soja).
Proof.
  exact (context_message_status_default Samples.soja eq_refl).
Defined.

(** X4. The technical content is optional in analysis: leaving it out
    is the same as giving the stock seaweed description. *)
Theorem user_prompt_pdf_default pc :
  pc !! "pdf_content" = None ->
  user_prompt pc
  = user_prompt (<["pdf_content" := default_pdf_content]> pc).
Proof.
  intros Habsent. unfold user_prompt, getitem, dict_get.
  rewrite !lookup_insert_ne by done.
  by rewrite lookup_insert_eq, Habsent.
Qed.

Lemma user_prompt_pdf_default_witness :
  user_prompt Samples.soja
  = user_prompt (<["pdf_content" := default_pdf_content]> Samples.soja).
Proof.
  exact (user_prompt_pdf_default Samples.soja eq_refl).
Defined.

End Prompts.

(** * What the agent's answer does to a call *)

Section Answers.
Import Ale.

Implicit Types (w : ChatWorld) (h : positive) (hist : list Message).

(** X5. An exception of the agent run leaves [run_ale_chat] as it is;
    by then the assembled sequence has been handed to the agent, and
    the caller's history still has its items. *)
Theorem run_ale_chat_agent_error
    agent user_message project_context h w hist context e :
  lists w !! h = Some hist ->
  context_message project_context = Ok context ->
  agent (assembled context hist user_message) = Raise e ->
  snd (run_ale_chat agent user_message project_context h w) = Raise e
  /\ sent (fst (run_ale_chat agent user_message project_context h w))
     = sent w ++ [assembled context hist user_message]
  /\ lists (fst (run_ale_chat agent user_message project_context h w)) !! h
     = Some hist.
Proof.
  intros Hlive Hctx Herr.
  rewrite (run_ale_chat_run _ _ _ _ _ _ _ Hlive Hctx). simpl.
  rewrite Herr. repeat split.
  rewrite lookup_insert_ne; [done |]. by eapply fresh_not_live.
Qed.

Lemma run_ale_chat_agent_error_witness :
  snd (run_ale_chat Samples.failing Samples.q1 Samples.soja 1
         (Samples.store [Samples.a1]))
  = Raise (ExternalError "RateLimit")
  /\ sent (fst (run_ale_chat Samples.failing Samples.q1 Samples.soja 1
                  (Samples.store [Samples.a1])))
     = [] ++ [assembled Samples.soja_context [Samples.a1] Samples.q1]
  /\ lists (fst (run_ale_chat Samples.failing Samples.q1 Samples.soja 1
                   (Samples.store [Samples.a1]))) !! 1%positive
     = Some [Samples.a1].
Proof.
  exact (run_ale_chat_agent_error Samples.failing Samples.q1 Samples.soja 1
           (Samples.store [Samples.a1]) [Samples.a1] Samples.soja_context
           (ExternalError "RateLimit") eq_refl eq_refl eq_refl).
Defined.

(** X6. When the answer has content, the reply is the text of its
    first part only: later parts are dropped, and a first part whose
    text is empty gives the empty reply, not the apology. *)
Theorem run_ale_chat_replies_first_part
    agent user_message project_context h w hist context output part rest :
  lists w !! h = Some hist ->
  context_message project_context = Ok context ->
  agent (assembled context hist user_message) = Ok output ->
  content output = part :: rest ->
  snd (run_ale_chat agent user_message project_context h w) = Ok (text part)
  /\ (text part = "" ->
      snd (run_ale_chat agent user_message project_context h w)
      <> Ok fallback_message).
Proof.
  intros Hlive Hctx Hout Hparts.
  rewrite (run_ale_chat_run _ _ _ _ _ _ _ Hlive Hctx). simpl.
  rewrite Hout. unfold reply_text. rewrite Hparts.
  split; [reflexivity |]. intros ->. discriminate.
Qed.

Lemma run_ale_chat_replies_first_part_witness :
  snd (run_ale_chat Samples.blank Samples.q1 Samples.soja 1
         (Samples.store []))
  = Ok "".
Proof.
  exact (proj1 (run_ale_chat_replies_first_part
                  Samples.blank Samples.q1 Samples.soja 1 (Samples.store [])
                  [] Samples.soja_context
                  {| content := [{| text := "" |};
                                 {| text := "18-24 meses." |}] |}
                  {| text := "" |} [{| text := "18-24 meses." |}]
                  eq_refl eq_refl eq_refl eq_refl)).
Defined.

(** X7. An analysis hands the agent one sequence holding a single
    user turn, the prompt: no context turn and no history. Its result
    is the parsed answer, an exception of the agent is passed on, and
    the lists that were live keep their items. *)
Theorem run_ale_analysis_sends_one_turn agent project_context w prompt :
  user_prompt project_context = Ok prompt ->
  sent (fst (run_ale_analysis agent project_context w))
  = sent w ++ [[user_turn prompt]]
  /\ snd (run_ale_analysis agent project_context w)
     = match agent [user_turn prompt] with
       | Ok output => Ok (parsed output)
       | Raise e => Raise e
       end
  /\ (forall r l,
        lists w !! r = Some l ->
        lists (fst (run_ale_analysis agent project_context w)) !! r
        = Some l).
Proof.
  intros Hprompt.
  unfold run_ale_analysis, bind, lift. rewrite Hprompt.
  unfold new_list, run_async_parsed. cbn zeta.
  rewrite items_set_items_eq.
  destruct (agent [user_turn prompt]) as [output | e]; simpl.
  all: repeat split.
  all: intros r l Hr; rewrite lookup_insert_ne; [done |];
       by eapply fresh_not_live.
Qed.

Lemma run_ale_analysis_sends_one_turn_witness :
  exists prompt,
    user_prompt Samples.soja = Ok prompt
    /\ sent (fst (run_ale_analysis Samples.analyst Samples.soja
                    (Samples.store [Samples.a1])))
       = [] ++ [[user_turn prompt]].
Proof.
  eexists. split; [reflexivity |].
  exact (proj1 (run_ale_analysis_sends_one_turn Samples.analyst
                  Samples.soja (Samples.store [Samples.a1]) _ eq_refl)).
Defined.

End Answers.

(** * Strings: length and cancellation of concatenation *)

Section Strings.

Implicit Types (a b t : string).

Lemma str_length_app a t :
  String.length (a +:+ t) = (String.length a + String.length t)%nat.
Proof. induction a as [| c a IH]; simpl; [reflexivity | by rewrite IH]. Qed.

Lemma str_app_cons (c : Ascii.ascii) a t :
  String c a +:+ t = String c (a +:+ t).
Proof. reflexivity. Qed.

Lemma str_app_inv_tail a b t : a +:+ t = b +:+ t -> a = b.
Proof.
  revert b. induction a as [| c a IH]; intros [| d b] Heq.
  - reflexivity.
  - apply (f_equal String.length) in Heq.
    rewrite !str_length_app in Heq. simpl in Heq. exfalso. lia.
  - apply (f_equal String.length) in Heq.
    rewrite !str_length_app in Heq. simpl in Heq. exfalso. lia.
  - rewrite !str_app_cons in Heq. injection Heq as -> Heq.
    f_equal. by apply IH.
Qed.

Lemma str_app_inv_head a b t : t +:+ a = t +:+ b -> a = b.
Proof.
  induction t as [| c t IH]; intros Heq; [exact Heq |].
  rewrite !str_app_cons in Heq. injection Heq as Heq. by apply IH.
Qed.

Lemma str_app_assoc a b t : (a +:+ b) +:+ t = a +:+ (b +:+ t).
Proof.
  induction a as [| c a IH]; [reflexivity |].
  rewrite !str_app_cons. by rewrite IH.
Qed.

Lemma str_take_length (n : nat) a :
  String.length (Api.str_take n a) = Nat.min n (String.length a).
Proof.
  revert a. induction n as [| n IH]; intros [| c a]; simpl; try reflexivity.
  by rewrite IH.
Qed.

End Strings.

(** * More on the web-extraction tool *)

Section Session.
Import Ale.

Implicit Types (ext : Externals) (termo : string).

Lemma same_browser_refl (b : Browser) : same_browser b b = true.
Proof. destruct b as [n]. simpl. apply Nat.eqb_refl. Qed.

(** X8. Whatever the collaborators answer, the Playwright and
    extraction calls of one run follow the session order. If
    Playwright did not start, trying to enter it is the only such
    call. If it started, a headless browser is launched, an extraction
    is requested only with the browser that launch returned, the
    browser closed is that same browser, and the run ends by leaving
    the Playwright context, after which no such call is made. (The
    constructors of the provider and of the extractor, which run
    before, are not among these calls.) *)
Theorem buscar_portal_mapa_follows_session_order ext termo :
  conforms (playwright_started ext) (launched_browser ext)
    (fst (buscar_portal_mapa ext termo []))
  = true.
Proof.
  unfold conforms, playwright_started, launched_browser.
  destruct (buscar_portal_mapa_fresh_run ext termo)
    as [e H1 | u e H1 H2 | u b e H1 H2 H3 | u b r H1 H2 H3];
    rewrite H1; try rewrite H2;
    repeat (cbn [steps step browser extract_request];
            rewrite ?same_browser_refl);
    reflexivity.
Qed.

(** X9. When the page was extracted but closing the browser raises,
    the extracted text is lost: the tool ends in the exception of
    [browser.close()]. *)
Theorem close_failure_discards_extraction ext termo u b result e :
  playwright_start ext = Ok u ->
  chromium_launch ext true = Ok b ->
  extract_async ext (extract_request b termo) = Ok result ->
  browser_close ext b = Raise e ->
  buscar_portal_mapa ext termo []
  = ([PlaywrightStart; ChromiumLaunch true;
      ExtractAsync (extract_request b termo); BrowserClose b;
      PlaywrightStop],
     Raise e).
Proof.
  intros Hstart Hlaunch Hext Hclose.
  unfold buscar_portal_mapa, async_with, bind, call, ret. simpl.
  by rewrite Hstart, Hlaunch, Hext, Hclose.
Qed.

Lemma close_failure_discards_extraction_witness :
  buscar_portal_mapa Samples.close_fails Samples.termo []
  = ([PlaywrightStart; ChromiumLaunch true;
      ExtractAsync (extract_request (BrowserHandle 0) Samples.termo);
      BrowserClose (BrowserHandle 0); PlaywrightStop],
     Raise (ExternalError "TargetClosedError")).
Proof.
  exact (close_failure_discards_extraction Samples.close_fails Samples.termo
           tt (BrowserHandle 0) Samples.extracted
           (ExternalError "TargetClosedError")
           eq_refl eq_refl eq_refl eq_refl).
Defined.

(** X10. When Playwright does not start, its error reaches the caller
    and the tool goes no further: no browser is launched, nothing is
    extracted, nothing is closed, and there is no Playwright context
    to leave. *)
Theorem no_playwright_no_browser ext termo e :
  playwright_start ext = Raise e ->
  snd (buscar_portal_mapa ext termo []) = Raise e
  /\ (forall headless,
        ChromiumLaunch headless ∉ fst (buscar_portal_mapa ext termo []))
  /\ (forall req, ExtractAsync req ∉ fst (buscar_portal_mapa ext termo []))
  /\ (forall b, BrowserClose b ∉ fst (buscar_portal_mapa ext termo []))
  /\ PlaywrightStop ∉ fst (buscar_portal_mapa ext termo []).
Proof.
  intros Hstart.
  assert (Hrun :
    buscar_portal_mapa ext termo [] = ([PlaywrightStart], Raise e)).
  { unfold buscar_portal_mapa, async_with, call. by rewrite Hstart. }
  rewrite Hrun. simpl.
  assert (Honly : forall ev, ev ∈ [PlaywrightStart] -> ev = PlaywrightStart).
  { intros ev Hin. apply elem_of_cons in Hin as [Hin | Hin]; [exact Hin |].
    by apply elem_of_nil in Hin. }
  split; [reflexivity |].
  split; [intros headless Hin; apply Honly in Hin; discriminate Hin |].
  split; [intros req Hin; apply Honly in Hin; discriminate Hin |].
  split; [intros b Hin; apply Honly in Hin; discriminate Hin |].
  intros Hin. apply Honly in Hin. discriminate Hin.
Qed.

Lemma no_playwright_no_browser_witness :
  snd (buscar_portal_mapa Samples.no_playwright Samples.termo [])
  = Raise (ExternalError "DriverNotFound")
  /\ (forall headless,
        ChromiumLaunch headless
          ∉ fst (buscar_portal_mapa Samples.no_playwright Samples.termo []))
  /\ (forall req,
        ExtractAsync req
          ∉ fst (buscar_portal_mapa Samples.no_playwright Samples.termo []))
  /\ (forall b,
        BrowserClose b
          ∉ fst (buscar_portal_mapa Samples.no_playwright Samples.termo []))
  /\ PlaywrightStop
       ∉ fst (buscar_portal_mapa Samples.no_playwright Samples.termo []).
Proof.
  exact (no_playwright_no_browser Samples.no_playwright Samples.termo
           (ExternalError "DriverNotFound") eq_refl).
Defined.

(** X11. The search term reaches the extractor only through the
    prompt: the pages visited and the preferences are the same for
    every term, and different terms give different prompts. *)
Theorem extract_request_depends_on_term_by_prompt (b : Browser) termo termo' :
  urls (extract_request b termo) = urls (extract_request b termo')
  /\ extraction_preferences (extract_request b termo)
     = extraction_preferences (extract_request b termo')
  /\ (prompt (extract_request b termo) = prompt (extract_request b termo')
      <-> termo = termo').
Proof.
  repeat split; [| by intros ->].
  simpl. unfold extraction_prompt. intros Heq.
  apply str_app_inv_head in Heq. by apply str_app_inv_tail in Heq.
Qed.

End Session.

(** * More on the HTTP endpoints *)

Section Accounts.
Import Api.

(** X12. The token check fails exactly on the empty token, with
    status 401; every other token, whatever its text, is accepted as
    the same fixed user. *)
Theorem verify_token_rejects_only_empty (t : string) :
  (returns (verify_token t) <-> t <> "")
  /\ (t = "" ->
      verify_token t = Raise (HTTPException 401 "Token não fornecido"))
  /\ (t <> "" ->
      verify_token t = Ok {| user_id := "user-1"; role := "colaborador" |}).
Proof.
  destruct t as [| c t]; simpl; repeat split; try done.
Qed.

(** X13. Login answers every email and password the same way: the
    password has no influence, the email is echoed, and the token it
    hands out passes the token check as the very user the login
    response describes. *)
Theorem login_token_is_accepted (request : LoginRequest) :
  (forall other_password,
     login {| email := email request; password := other_password |}
     = login request)
  /\ login_user_email (user (login request)) = email request
  /\ exists u,
       verify_token (token (login request)) = Ok u
       /\ user_id u = login_user_id (user (login request))
       /\ role u = login_user_role (user (login request)).
Proof.
  repeat split. eexists. repeat split.
Qed.

End Accounts.

Section Uploads.
Import Api.

Implicit Types (s : Server) (file : list Byte.byte) (current : User).

Lemma upload_path_not_uploads (id : string) : upload_path id <> "uploads".
Proof.
  unfold upload_path. intros Heq.
  apply (f_equal String.length) in Heq.
  rewrite !str_length_app in Heq. simpl in Heq. lia.
Qed.

Lemma upload_path_inj a b :
  upload_path ("proj-" +:+ a) = upload_path ("proj-" +:+ b) -> a = b.
Proof.
  unfold upload_path. intros Heq.
  apply str_app_inv_head, str_app_inv_tail, str_app_inv_head in Heq.
  exact Heq.
Qed.

(** One successful run, step by step. *)
Lemma create_project_run name category target_crop description file current s :
  can_store s (next_project_id s) ->
  create_project name category target_crop description file current s
  = ({| files := <[upload_path (next_project_id s) := file]> (files s);
        directories := {[ "uploads" ]} ∪ directories s;
        uuid_hex := uuid_hex s;
        drawn := S (drawn s);
        clock_at := clock_at s;
        clock_reads := S (clock_reads s) |},
     Ok {| created_project_id := next_project_id s;
           created_name := name;
           created_category := category;
           created_target_crop := target_crop;
           created_status := processing;
           created_at := clock_at s (clock_reads s);
           created_by := user_id current |}).
Proof.
  intros [Hfile Hdir].
  unfold create_project, bind, uuid4_hex, makedirs, write_binary,
    datetime_now, ret.
  cbn [files directories uuid_hex drawn clock_at clock_reads].
  rewrite Hfile. cbn [files directories uuid_hex drawn clock_at clock_reads].
  fold (next_project_id s).
  destruct (decide (upload_path (next_project_id s)
                    ∈ {[ "uploads" ]} ∪ directories s)) as [Hin | _].
  - exfalso. apply elem_of_union in Hin as [Hin | Hin].
    + apply elem_of_singleton in Hin. by apply upload_path_not_uploads in Hin.
    + by apply Hdir.
  - reflexivity.
Qed.

(** The next upload can still be stored after one project was created. *)
Lemma can_store_after name category target_crop description file current s id :
  can_store s (next_project_id s) ->
  upload_path id ∉ directories s ->
  can_store
    (fst (create_project name category target_crop description file current s))
    id.
Proof.
  intros Hcan Hdir.
  rewrite (create_project_run _ _ _ _ _ _ _ Hcan). destruct Hcan as [Hfile _].
  split; cbn [fst files directories].
  - rewrite lookup_insert_ne; [exact Hfile |]. apply upload_path_not_uploads.
  - intros Hin. apply elem_of_union in Hin as [Hin | Hin].
    + apply elem_of_singleton in Hin. by apply upload_path_not_uploads in Hin.
    + by apply Hdir.
Qed.

Lemma next_project_id_after name category target_crop description file current s :
  can_store s (next_project_id s) ->
  next_project_id
    (fst (create_project name category target_crop description file current s))
  = "proj-" +:+ str_take 8 (uuid_hex s (S (drawn s))).
Proof.
  intros Hcan. by rewrite (create_project_run _ _ _ _ _ _ _ Hcan).
Qed.

(** X14. When "uploads" is not a regular file and no directory sits
    at the PDF's path, [create_project] returns, and afterwards the
    file uploads/<project_id>.pdf holds exactly the uploaded bytes,
    under the identifier the response reports; every other file is as
    before, the uploads directory exists, and the project is recorded
    as processing and created by the calling user. No field of the
    form is checked: any name, category and crop are echoed back. *)
Theorem create_project_stores_upload
    name category target_crop description file current s :
  can_store s (next_project_id s) ->
  exists p,
    snd (create_project name category target_crop description file current s)
    = Ok p
    /\ created_project_id p = next_project_id s
    /\ files (fst (create_project name category target_crop description
                     file current s))
         !! upload_path (created_project_id p)
       = Some file
    /\ (forall path,
          path <> upload_path (created_project_id p) ->
          files (fst (create_project name category target_crop description
                        file current s)) !! path
          = files s !! path)
    /\ "uploads" ∈ directories (fst (create_project name category
                                      target_crop description file
                                      current s))
    /\ (created_name p, created_category p, created_target_crop p)
       = (name, category, target_crop)
    /\ created_status p = processing
    /\ created_by p = user_id current.
Proof.
  intros Hcan. rewrite (create_project_run _ _ _ _ _ _ _ Hcan).
  eexists. split; [reflexivity |].
  cbn [fst files directories created_project_id created_name
       created_category created_target_crop created_status created_by].
  split; [reflexivity |].
  split; [by rewrite lookup_insert_eq |].
  split; [intros path Hne; by rewrite lookup_insert_ne |].
  split; [set_solver |]. repeat split.
Qed.

Lemma create_project_stores_upload_witness :
  exists p,
    snd (create_project "Algas" "bioestimulantes" "soja" None Samples.pdf1
           Samples.colaborador (Samples.server Samples.distinct_uuids))
    = Ok p
    /\ files (fst (create_project "Algas" "bioestimulantes" "soja" None
                     Samples.pdf1 Samples.colaborador
                     (Samples.server Samples.distinct_uuids)))
         !! upload_path (created_project_id p)
       = Some Samples.pdf1.
Proof.
  destruct (create_project_stores_upload
              "Algas" "bioestimulantes" "soja" None Samples.pdf1
              Samples.colaborador (Samples.server Samples.distinct_uuids))
    as (p & Hp & _ & Hfile & _).
  - split; [reflexivity | apply not_elem_of_empty].
  - exists p. split; [exact Hp | exact Hfile].
Defined.

(** X15. A UUID has at least eight hexadecimal digits, so the
    identifier of a project that was stored is "proj-" followed by the
    first eight of them: 13 characters, and its file path has 25. *)
Theorem create_project_id_format
    name category target_crop description file current s :
  can_store s (next_project_id s) ->
  (8 <= String.length (uuid_hex s (drawn s)))%nat ->
  exists p,
    snd (create_project name category target_crop description file current s)
    = Ok p
    /\ created_project_id p = "proj-" +:+ str_take 8 (uuid_hex s (drawn s))
    /\ String.length (created_project_id p) = 13%nat
    /\ String.length (upload_path (created_project_id p)) = 25%nat.
Proof.
  intros Hcan Hlen. rewrite (create_project_run _ _ _ _ _ _ _ Hcan).
  assert (Hpre :
    String.length (str_take 8 (uuid_hex s (drawn s))) = 8%nat)
    by (rewrite str_take_length; lia).
  eexists. split; [reflexivity |]. cbn [created_project_id].
  unfold next_project_id, upload_path.
  split; [reflexivity |].
  rewrite !str_length_app, Hpre. split; reflexivity.
Qed.

Lemma create_project_id_format_witness :
  exists p,
    snd (create_project "Algas" "bioestimulantes" "soja" None Samples.pdf1
           Samples.colaborador (Samples.server Samples.distinct_uuids))
    = Ok p
    /\ created_project_id p
       = "proj-" +:+ str_take 8 (Samples.distinct_uuids 0)
    /\ String.length (created_project_id p) = 13%nat
    /\ String.length (upload_path (created_project_id p)) = 25%nat.
Proof.
  apply (create_project_id_format "Algas" "bioestimulantes" "soja" None
           Samples.pdf1 Samples.colaborador
           (Samples.server Samples.distinct_uuids)).
  - split; [reflexivity | apply not_elem_of_empty].
  - simpl. lia.
Defined.

(** X16. Two projects created one after the other, each of which can
    be stored, whose UUIDs differ in the first eight digits, get
    different identifiers, and both uploads are kept. *)
Theorem create_project_keeps_both_uploads
    name1 category1 crop1 description1 file1
    name2 category2 crop2 description2 file2 current s :
  can_store s (next_project_id s) ->
  upload_path ("proj-" +:+ str_take 8 (uuid_hex s (S (drawn s))))
    ∉ directories s ->
  str_take 8 (uuid_hex s (drawn s))
  <> str_take 8 (uuid_hex s (S (drawn s))) ->
  exists p1 p2,
    snd (create_project name1 category1 crop1 description1 file1 current s)
    = Ok p1
    /\ snd (create_project name2 category2 crop2 description2 file2 current
              (fst (create_project name1 category1 crop1 description1 file1
                      current s)))
       = Ok p2
    /\ created_project_id p1 <> created_project_id p2
    /\ files (fst (create_project name2 category2 crop2 description2 file2
                     current
                     (fst (create_project name1 category1 crop1 description1
                             file1 current s))))
         !! upload_path (created_project_id p1)
       = Some file1
    /\ files (fst (create_project name2 category2 crop2 description2 file2
                     current
                     (fst (create_project name1 category1 crop1 description1
                             file1 current s))))
         !! upload_path (created_project_id p2)
       = Some file2.
Proof.
  intros Hcan Hdir Hdiff.
  pose proof (next_project_id_after name1 category1 crop1 description1 file1
                current s Hcan) as Hnext.
  assert (Hcan2 :
    can_store
      (fst (create_project name1 category1 crop1 description1 file1
              current s))
      (next_project_id
         (fst (create_project name1 category1 crop1 description1 file1
                 current s)))).
  { rewrite Hnext. by apply can_store_after. }
  rewrite (create_project_run name2 _ _ _ _ _ _ Hcan2). rewrite Hnext.
  rewrite (create_project_run name1 _ _ _ _ _ _ Hcan).
  cbn [fst snd files].
  eexists _, _. split; [reflexivity |]. split; [reflexivity |].
  cbn [created_project_id]. unfold next_project_id.
  split.
  { intros Heq. apply str_app_inv_head in Heq. by apply Hdiff. }
  split.
  - rewrite lookup_insert_ne, lookup_insert_eq; [done |].
    intros Heq. apply upload_path_inj in Heq. by apply Hdiff.
  - by rewrite lookup_insert_eq.
Qed.

Lemma create_project_keeps_both_uploads_witness :
  exists p1 p2,
    snd (create_project "Algas" "bioestimulantes" "soja" None Samples.pdf1
           Samples.colaborador (Samples.server Samples.distinct_uuids))
    = Ok p1
    /\ snd (create_project "Zinco" "nutricao_foliar" "milho" None
              Samples.pdf2 Samples.colaborador
              (fst (create_project "Algas" "bioestimulantes" "soja" None
                      Samples.pdf1 Samples.colaborador
                      (Samples.server Samples.distinct_uuids))))
       = Ok p2
    /\ created_project_id p1 <> created_project_id p2
    /\ files (fst (create_project "Zinco" "nutricao_foliar" "milho" None
                     Samples.pdf2 Samples.colaborador
                     (fst (create_project "Algas" "bioestimulantes" "soja"
                             None Samples.pdf1 Samples.colaborador
                             (Samples.server Samples.distinct_uuids)))))
         !! upload_path (created_project_id p1)
       = Some Samples.pdf1
    /\ files (fst (create_project "Zinco" "nutricao_foliar" "milho" None
                     Samples.pdf2 Samples.colaborador
                     (fst (create_project "Algas" "bioestimulantes" "soja"
                             None Samples.pdf1 Samples.colaborador
                             (Samples.server Samples.distinct_uuids)))))
         !! upload_path (created_project_id p2)
       = Some Samples.pdf2.
Proof.
  apply (create_project_keeps_both_uploads
           "Algas" "bioestimulantes" "soja" None Samples.pdf1
           "Zinco" "nutricao_foliar" "milho" None Samples.pdf2
           Samples.colaborador (Samples.server Samples.distinct_uuids)).
  - split; [reflexivity | apply not_elem_of_empty].
  - apply not_elem_of_empty.
  - simpl. discriminate.
Defined.

(** X17. Only eight digits of the UUID are used: when two UUIDs in a
    row agree on them, the second project gets the identifier of the
    first and its upload replaces the first one's file. *)
Theorem create_project_clash_overwrites
    name1 category1 crop1 description1 file1
    name2 category2 crop2 description2 file2 current s :
  can_store s (next_project_id s) ->
  str_take 8 (uuid_hex s (drawn s))
  = str_take 8 (uuid_hex s (S (drawn s))) ->
  exists p1 p2,
    snd (create_project name1 category1 crop1 description1 file1 current s)
    = Ok p1
    /\ snd (create_project name2 category2 crop2 description2 file2 current
              (fst (create_project name1 category1 crop1 description1 file1
                      current s)))
       = Ok p2
    /\ created_project_id p1 = created_project_id p2
    /\ files (fst (create_project name2 category2 crop2 description2 file2
                     current
                     (fst (create_project name1 category1 crop1 description1
                             file1 current s))))
         !! upload_path (created_project_id p1)
       = Some file2.
Proof.
  intros Hcan Hsame.
  pose proof (next_project_id_after name1 category1 crop1 description1 file1
                current s Hcan) as Hnext.
  rewrite <- Hsame in Hnext. fold (next_project_id s) in Hnext.
  assert (Hcan2 :
    can_store
      (fst (create_project name1 category1 crop1 description1 file1
              current s))
      (next_project_id
         (fst (create_project name1 category1 crop1 description1 file1
                 current s)))).
  { rewrite Hnext. apply can_store_after; [exact Hcan | apply Hcan]. }
  rewrite (create_project_run name2 _ _ _ _ _ _ Hcan2). rewrite Hnext.
  rewrite (create_project_run name1 _ _ _ _ _ _ Hcan).
  cbn [fst snd files].
  eexists _, _. split; [reflexivity |]. split; [reflexivity |].
  cbn [created_project_id].
  split; [reflexivity |]. by rewrite lookup_insert_eq.
Qed.

Lemma create_project_clash_overwrites_witness :
  exists p1 p2,
    snd (create_project "Algas" "bioestimulantes" "soja" None Samples.pdf1
           Samples.colaborador (Samples.server Samples.clashing_uuids))
    = Ok p1
    /\ snd (create_project "Zinco" "nutricao_foliar" "milho" None
              Samples.pdf2 Samples.colaborador
              (fst (create_project "Algas" "bioestimulantes" "soja" None
                      Samples.pdf1 Samples.colaborador
                      (Samples.server Samples.clashing_uuids))))
       = Ok p2
    /\ created_project_id p1 = created_project_id p2
    /\ files (fst (create_project "Zinco" "nutricao_foliar" "milho" None
                     Samples.pdf2 Samples.colaborador
                     (fst (create_project "Algas" "bioestimulantes" "soja"
                             None Samples.pdf1 Samples.colaborador
                             (Samples.server Samples.clashing_uuids)))))
         !! upload_path (created_project_id p1)
       = Some Samples.pdf2.
Proof.
  apply (create_project_clash_overwrites
           "Algas" "bioestimulantes" "soja" None Samples.pdf1
           "Zinco" "nutricao_foliar" "milho" None Samples.pdf2
           Samples.colaborador (Samples.server Samples.clashing_uuids)).
  - split; [reflexivity | apply not_elem_of_empty].
  - reflexivity.
Defined.

(** X23. The two ways the upload can fail. When "uploads" is a regular
    file, [create_project] ends in FileExistsError; when a directory
    sits at the PDF's path, it ends in IsADirectoryError. Either way a
    UUID has been drawn, no file is written, and the clock is not
    read. *)
Theorem create_project_upload_failures
    name category target_crop description file current s :
  (is_Some (files s !! "uploads") ->
   snd (create_project name category target_crop description file current s)
   = Raise (ExternalError "FileExistsError"))
  /\ (files s !! "uploads" = None ->
      upload_path (next_project_id s) ∈ directories s ->
      snd (create_project name category target_crop description file
             current s)
      = Raise (ExternalError "IsADirectoryError"))
  /\ (~ can_store s (next_project_id s) ->
      files (fst (create_project name category target_crop description file
                    current s))
      = files s
      /\ drawn (fst (create_project name category target_crop description
                       file current s))
         = S (drawn s)
      /\ clock_reads (fst (create_project name category target_crop
                             description file current s))
         = clock_reads s).
Proof.
  unfold create_project, bind, uuid4_hex, makedirs, write_binary,
    datetime_now, ret, can_store.
  cbn [files directories uuid_hex drawn clock_at clock_reads].
  fold (next_project_id s).
  destruct (files s !! "uploads") as [existing |] eqn:Hfile.
  - split; [done |]. split; [done |]. done.
  - cbn [files directories uuid_hex drawn clock_at clock_reads].
    destruct (decide (upload_path (next_project_id s)
                      ∈ {[ "uploads" ]} ∪ directories s)) as [Hin | Hnot].
    + split; [by intros [? ?] |]. split; done.
    + split; [by intros [? ?] |]. split.
      * intros _ Hdir. exfalso. apply Hnot. set_solver.
      * intros Hcannot. exfalso. apply Hcannot. split; [done |].
        intros Hdir. apply Hnot. set_solver.
Qed.

End Uploads.

Section MockChat.
Import Api.

Implicit Types (s : Server) (current : User).

Lemma agent_names_known (agent_id : string) :
  is_Some (agent_names !! agent_id) <-> agent_id ∈ known_agents.
Proof.
  unfold known_agents. split.
  - intros [name Hname]. unfold agent_names in Hname.
    apply elem_of_list_to_map_2 in Hname.
    repeat (apply elem_of_cons in Hname as [Hname | Hname];
            [injection Hname as -> _; set_solver |]).
    by apply elem_of_nil in Hname.
  - intros Hin.
    repeat (apply elem_of_cons in Hin as [-> | Hin]; [by eexists |]).
    by apply elem_of_nil in Hin.
Qed.

Lemma chat_with_agent_run id agent_id message current s :
  chat_with_agent id agent_id message current s
  = match agent_names !! agent_id with
    | Some name =>
        ({| files := files s; directories := directories s;
            uuid_hex := uuid_hex s; drawn := S (S (drawn s));
            clock_at := clock_at s; clock_reads := S (clock_reads s) |},
         Ok {| chat_id := "chat-" +:+ str_take 8 (uuid_hex s (drawn s));
               reply_agent_id := agent_id;
               reply_agent_name := name;
               message_id :=
                 "msg-" +:+ str_take 6 (uuid_hex s (S (drawn s)));
               response_text :=
                 "[Mock] Resposta do agente " +:+ name
                   +:+ " para: " +:+ message;
               structured_data := VDict [];
               timestamp := clock_at s (clock_reads s) |})
    | None =>
        ({| files := files s; directories := directories s;
            uuid_hex := uuid_hex s; drawn := S (S (drawn s));
            clock_at := clock_at s; clock_reads := clock_reads s |},
         Raise (KeyError agent_id))
    end.
Proof.
  unfold chat_with_agent, bind, lift, uuid4_hex, getitem.
  cbn [uuid_hex drawn].
  destruct (agent_names !! agent_id); reflexivity.
Qed.

(** X18. [chat_with_agent] answers exactly for the agent ids ale,
    merc, pat and dex; any other id ends in a KeyError naming it.
    Either way two UUIDs have been drawn by then and no file is
    touched; the clock is read only for an answer. *)
Theorem chat_with_agent_known_agents id agent_id message current s :
  (returns (snd (chat_with_agent id agent_id message current s))
   <-> agent_id ∈ known_agents)
  /\ (agent_id ∉ known_agents ->
      snd (chat_with_agent id agent_id message current s)
      = Raise (KeyError agent_id)
      /\ clock_reads (fst (chat_with_agent id agent_id message current s))
         = clock_reads s)
  /\ drawn (fst (chat_with_agent id agent_id message current s))
     = S (S (drawn s))
  /\ files (fst (chat_with_agent id agent_id message current s)) = files s.
Proof.
  rewrite chat_with_agent_run.
  pose proof (agent_names_known agent_id) as Hknown.
  destruct (agent_names !! agent_id) as [name |]; simpl.
  - split; [split; [intros _; apply Hknown; by eexists | done] |].
    split; [| done].
    intros Hnot. exfalso. apply Hnot, Hknown. by eexists.
  - split; [| done].
    split; [done |]. intros Hin. apply Hknown in Hin. by destruct Hin.
Qed.

(** X19. The mock reply names the agent and repeats the user's message
    word for word at its end; its identifiers are "chat-" and "msg-"
    followed by digits of the first and of the second UUID drawn. *)
Theorem chat_with_agent_echoes_message id agent_id message current s name :
  agent_names !! agent_id = Some name ->
  exists reply,
    snd (chat_with_agent id agent_id message current s) = Ok reply
    /\ reply_agent_name reply = name
    /\ response_text reply
       = ("[Mock] Resposta do agente " +:+ name +:+ " para: ") +:+ message
    /\ chat_id reply = "chat-" +:+ str_take 8 (uuid_hex s (drawn s))
    /\ message_id reply = "msg-" +:+ str_take 6 (uuid_hex s (S (drawn s)))
    /\ structured_data reply = VDict [].
Proof.
  intros Hname. rewrite chat_with_agent_run, Hname. eexists.
  split; [reflexivity |]. cbn [reply_agent_name response_text chat_id
                               message_id structured_data].
  repeat split. by rewrite !str_app_assoc.
Qed.

Lemma chat_with_agent_echoes_message_witness :
  exists reply,
    snd (chat_with_agent "proj-3f2a9c1e" "pat" Samples.q1
           Samples.colaborador (Samples.server Samples.distinct_uuids))
    = Ok reply
    /\ reply_agent_name reply = "Pat"
    /\ response_text reply
       = ("[Mock] Resposta do agente " +:+ "Pat" +:+ " para: ")
         +:+ Samples.q1
    /\ chat_id reply = "chat-" +:+ str_take 8 (Samples.distinct_uuids 0)
    /\ message_id reply = "msg-" +:+ str_take 6 (Samples.distinct_uuids 1)
    /\ structured_data reply = VDict [].
Proof.
  exact (chat_with_agent_echoes_message "proj-3f2a9c1e" "pat" Samples.q1
           Samples.colaborador (Samples.server Samples.distinct_uuids)
           "Pat" eq_refl).
Defined.

(** X20. The chat identifier is drawn anew on every call: it does not
    depend on the project or the agent, so two messages sent in a row
    to the same agent of the same project carry different chat ids
    whenever the UUIDs drawn for them differ in their first eight
    digits. *)
Theorem chat_with_agent_new_chat_each_call
    id agent_id message1 message2 current s name :
  agent_names !! agent_id = Some name ->
  str_take 8 (uuid_hex s (drawn s))
  <> str_take 8 (uuid_hex s (S (S (drawn s)))) ->
  exists r1 r2,
    snd (chat_with_agent id agent_id message1 current s) = Ok r1
    /\ snd (chat_with_agent id agent_id message2 current
              (fst (chat_with_agent id agent_id message1 current s)))
       = Ok r2
    /\ chat_id r1 <> chat_id r2.
Proof.
  intros Hname Hdiff. rewrite !chat_with_agent_run, Hname.
  cbn [fst snd uuid_hex drawn].
  eexists _, _. split; [reflexivity |]. split; [reflexivity |].
  cbn [chat_id]. intros Heq. apply str_app_inv_head in Heq. by apply Hdiff.
Qed.

Lemma chat_with_agent_new_chat_each_call_witness :
  exists r1 r2,
    snd (chat_with_agent "proj-3f2a9c1e" "ale" Samples.q1
           Samples.colaborador (Samples.server Samples.distinct_uuids))
    = Ok r1
    /\ snd (chat_with_agent "proj-3f2a9c1e" "ale" Samples.q2
              Samples.colaborador
              (fst (chat_with_agent "proj-3f2a9c1e" "ale" Samples.q1
                      Samples.colaborador
                      (Samples.server Samples.distinct_uuids))))
       = Ok r2
    /\ chat_id r1 <> chat_id r2.
Proof.
  apply (chat_with_agent_new_chat_each_call "proj-3f2a9c1e" "ale"
           Samples.q1 Samples.q2 Samples.colaborador
           (Samples.server Samples.distinct_uuids) "Alê" eq_refl).
  simpl. discriminate.
Defined.

End MockChat.

Section MockData.
Import Api.

(** X21. For every project the status snapshot is coherent: each agent
    has a progress between 0 and 100 and a remaining time that is not
    negative, is completed exactly when its progress is 100 (then with
    no time remaining), is at 0 while pending, and the overall progress
    56 is the mean of the four agents' progress rounded down. *)
Theorem get_project_status_coherent (id : string) (current : User)
    (g : Globals) :
  exists snapshot,
    get_project_status id current g = (g, Ok snapshot)
    /\ map_Forall (fun _ p => coherent_progress p) (progress snapshot)
    /\ dom (progress snapshot) = list_to_set known_agents
    /\ overall_progress_percent snapshot = mean_progress snapshot.
Proof.
  eexists. split; [reflexivity |]. cbn [progress overall_progress_percent].
  split; [| split; [vm_compute; reflexivity | vm_compute; reflexivity]].
  intros k p Hk. apply elem_of_list_to_map_2 in Hk.
  repeat (apply elem_of_cons in Hk as [Hk | Hk];
          [injection Hk as _ ->; unfold coherent_progress; simpl;
           repeat split; intros; (lia || congruence) |]).
  by apply elem_of_nil in Hk.
Qed.

(** X22. [list_projects] applies neither the status filter nor the
    paging: for every filter, limit and offset it lists the one
    completed mock project and reports a total of 1, echoing limit and
    offset; its id, name and score are those of the mock analysis. *)
Theorem list_projects_ignores_filter_and_paging
    (filter : StatusFilter) (limit offset : Z) (current : User)
    (s : Server) (now : Z) :
  exists page project,
    snd (list_projects filter limit offset current s) = Ok page
    /\ projects page = [project]
    /\ summary_status project = completed
    /\ (total page, page_limit page, page_offset page) = (1, limit, offset)
    /\ summary_project_id project = project_id (MOCK_ANALYSIS_DATA now)
    /\ summary_name project = project_name (MOCK_ANALYSIS_DATA now)
    /\ summary_overall_score project = overall_score (MOCK_ANALYSIS_DATA now)
    /\ summary_created_at project = clock_at s (clock_reads s)
    /\ summary_analyzed_at project = clock_at s (S (clock_reads s)).
Proof.
  eexists _, _. repeat split.
Qed.

End MockData.
